(** * File_Validation.py: the upload validation pipeline

    A shallow embedding of [src/File_Validation.py] (a FastAPI endpoint that
    validates an uploaded csv/txt file and logs every verdict to a database)
    and the properties of it that the specification states.

    Modelling conventions.
    - A Python [str] is a [string]: the UTF-8 bytes of the text.  The two
      marks the program tests for are the three-byte sequences of U+2705 and
      U+274C.
    - [str.lower] depends on the Unicode tables of the interpreter: it is a
      parameter [str_lower] of the model.  [Str.lower] is the fold of the
      ASCII letters, what [str.lower] does to ASCII text; it instantiates
      [str_lower] in the examples.
    - The class [\s] of the regular expressions is that of [str] patterns:
      the white space of Unicode, recognised on the UTF-8 bytes.
    - [os.path.splitext] follows CPython's [genericpath._splitext], for both
      path flavours ([posixpath] and [ntpath]).
    - An uploaded file is a seekable byte stream: its bytes and a position.
    - [pandas.read_csv] is a library outside the repository: it is a
      parameter [pd_read_csv] of the model, from the bytes it is given and the
      delimiter to a frame or an exception, with the number of bytes it
      consumed.
    - Data frames live in a store and are named by references, since the
      program passes one frame to three functions in turn.  A frame can be
      overwritten (what pandas does under [inplace=True]) or copied.
    - The database is the list of the rows inserted so far; inserting always
      succeeds.
    - [calls] is ghost state: the functions of the program entered so far,
      oldest first. *)

From Stdlib Require Import List String Ascii ZArith QArith Lia Bool Arith.
From Stdlib Require Import Strings.Byte.
Import ListNotations.
Local Open Scope string_scope.
Local Open Scope list_scope.

(** ** Strings *)

Module Str.

Definition is_upper (c : ascii) : bool :=
  let n := nat_of_ascii c in (65 <=? n)%nat && (n <=? 90)%nat.

Definition is_lower (c : ascii) : bool :=
  let n := nat_of_ascii c in (97 <=? n)%nat && (n <=? 122)%nat.

Definition is_digit (c : ascii) : bool :=
  let n := nat_of_ascii c in (48 <=? n)%nat && (n <=? 57)%nat.

(** The fold of the ASCII letters: [str.lower] on ASCII text. *)
Definition lower_char (c : ascii) : ascii :=
  if is_upper c then ascii_of_nat (nat_of_ascii c + 32) else c.

Fixpoint lower (s : string) : string :=
  match s with
  | EmptyString => EmptyString
  | String c s' => String (lower_char c) (lower s')
  end.

(** [s[1:]] *)
Definition drop1 (s : string) : string :=
  match s with
  | EmptyString => EmptyString
  | String _ s' => s'
  end.

(** [s[:n]] and [s[n:]] for [0 <= n]. *)
Fixpoint take (n : nat) (s : string) : string :=
  match n, s with
  | S n', String c s' => String c (take n' s')
  | _, _ => EmptyString
  end.

Fixpoint drop (n : nat) (s : string) : string :=
  match n, s with
  | S n', String _ s' => drop n' s'
  | _, _ => s
  end.

(** [s.rfind(c)]: the highest index of [c] in [s], or -1. *)
Fixpoint rfind_from (i : Z) (c : ascii) (s : string) : Z :=
  match s with
  | EmptyString => (-1)%Z
  | String d s' =>
      let r := rfind_from (i + 1) c s' in
      if (0 <=? r)%Z then r else if Ascii.eqb d c then i else (-1)%Z
  end.

Definition rfind (c : ascii) (s : string) : Z := rfind_from 0 c s.

(** [needle in hay] *)
Fixpoint contains (needle hay : string) : bool :=
  if prefix needle hay then true
  else match hay with
       | EmptyString => false
       | String _ hay' => contains needle hay'
       end.

(** [''.join(l)] *)
Definition join (l : list string) : string :=
  fold_right String.append EmptyString l.

Fixpoint forallb (p : ascii -> bool) (s : string) : bool :=
  match s with
  | EmptyString => true
  | String c s' => p c && forallb p s'
  end.

Fixpoint list_eqb (a b : list string) : bool :=
  match a, b with
  | [], [] => true
  | x :: a', y :: b' => String.eqb x y && list_eqb a' b'
  | _, _ => false
  end.

End Str.

(** ** os.path *)

Module OsPath.

(** The separators of a path flavour: [posixpath] has [sep = "/"] and no
    [altsep]; [ntpath] has [sep = "\"] and [altsep = "/"]. *)
Record flavour := { sep : ascii; altsep : option ascii }.

Definition posixpath : flavour := {| sep := "/"%char; altsep := None |}.
Definition ntpath : flavour := {| sep := "\"%char; altsep := Some "/"%char |}.

Definition extsep : ascii := "."%char.

(** The loop of [genericpath._splitext] that skips leading dots: with
    [n = dotIndex - filenameIndex] steps left, is there a character other
    than the dot in [p[filenameIndex:dotIndex]]? *)
Fixpoint has_non_dot (n : nat) (rest : string) : bool :=
  match n, rest with
  | S n', String c rest' =>
      if negb (Ascii.eqb c extsep) then true else has_non_dot n' rest'
  | _, _ => false
  end.

Definition splitext (fl : flavour) (p : string) : string * string :=
  let sepIndex := Str.rfind (sep fl) p in
  let sepIndex :=
    match altsep fl with
    | Some a => Z.max sepIndex (Str.rfind a p)
    | None => sepIndex
    end in
  let dotIndex := Str.rfind extsep p in
  if (sepIndex <? dotIndex)%Z then
    let filenameIndex := (sepIndex + 1)%Z in
    if has_non_dot (Z.to_nat (dotIndex - filenameIndex))
                   (Str.drop (Z.to_nat filenameIndex) p)
    then (Str.take (Z.to_nat dotIndex) p, Str.drop (Z.to_nat dotIndex) p)
    else (p, EmptyString)
  else (p, EmptyString).

End OsPath.


(** ** The uploaded file: a seekable binary stream *)

Module Stream.

Record stream := { content : list byte; position : nat }.

(** [f.seek(0, os.SEEK_END)] *)
Definition seek_end (f : stream) : stream :=
  {| content := content f; position := List.length (content f) |}.

(** [f.seek(n)] *)
Definition seek (n : nat) (f : stream) : stream :=
  {| content := content f; position := n |}.

(** [f.tell()] *)
Definition tell (f : stream) : nat := position f.

(** What a reader that starts at the current position is given. *)
Definition remaining (f : stream) : list byte :=
  skipn (position f) (content f).

(** The stream after a reader consumed [used] of the remaining bytes. *)
Definition advance (used : nat) (f : stream) : stream :=
  {| content := content f;
     position := position f + Nat.min used (List.length (remaining f)) |}.

End Stream.

(** ** pandas: frames and the operations the program applies to them *)

Module Pandas.

(** A cell as [read_csv] leaves it: missing, text, a number or a boolean. *)
Inductive cell :=
| NA
| Text (s : string)
| Num (q : Q)
| Flag (b : bool).

Record DataFrame := { columns : list string; rows : list (list cell) }.

Definition is_na (c : cell) : bool :=
  match c with NA => true | _ => false end.

(** Truth value of a cell, as [numpy.any] takes it. *)
Definition truthy (c : cell) : bool :=
  match c with
  | NA => true
  | Text s => negb (String.eqb s "")
  | Num q => negb (Qeq_bool q 0)
  | Flag b => b
  end.

(** [data.isnull()]: a new frame of booleans. *)
Definition isnull (d : DataFrame) : DataFrame :=
  {| columns := columns d;
     rows := map (map (fun c => Flag (is_na c))) (rows d) |}.

(** [d.values.any()] *)
Definition values_any (d : DataFrame) : bool :=
  existsb (existsb truthy) (rows d).

(** The class [\s] of a [str] pattern, on the UTF-8 bytes of the text: the
    characters for which [str.isspace] holds.  In one byte: tab, newline,
    vertical tab, form feed, carriage return, the four separators 28..31 and
    the space. *)
Definition space1 (c : ascii) : bool :=
  let n := nat_of_ascii c in
  ((9 <=? n)%nat && (n <=? 13)%nat) || ((28 <=? n)%nat && (n <=? 32)%nat).

(** In two bytes: U+0085 (C2 85) and U+00A0 (C2 A0). *)
Definition space2 (c1 c2 : ascii) : bool :=
  let a := nat_of_ascii c1 in
  let b := nat_of_ascii c2 in
  (a =? 194)%nat && ((b =? 133)%nat || (b =? 160)%nat).

(** In three bytes: U+1680 (E1 9A 80), U+2000..U+200A (E2 80 80..8A),
    U+2028, U+2029 and U+202F (E2 80 A8, A9, AF), U+205F (E2 81 9F) and
    U+3000 (E3 80 80). *)
Definition space3 (c1 c2 c3 : ascii) : bool :=
  let a := nat_of_ascii c1 in
  let b := nat_of_ascii c2 in
  let c := nat_of_ascii c3 in
  ((a =? 225)%nat && (b =? 154)%nat && (c =? 128)%nat)
  || ((a =? 226)%nat && (b =? 128)%nat
      && (((128 <=? c)%nat && (c <=? 138)%nat)
          || (c =? 168)%nat || (c =? 169)%nat || (c =? 175)%nat))
  || ((a =? 226)%nat && (b =? 129)%nat && (c =? 159)%nat)
  || ((a =? 227)%nat && (b =? 128)%nat && (c =? 128)%nat).

(** Does [^\s*$] match the text?  The text has to be a sequence of white
    space characters (the newline that [$] may leave at the end is white
    space too). *)
Fixpoint blank (s : string) : bool :=
  match s with
  | EmptyString => true
  | String c1 s1 =>
      if space1 c1 then blank s1
      else
        match s1 with
        | EmptyString => false
        | String c2 s2 =>
            if space2 c1 c2 then blank s2
            else
              match s2 with
              | EmptyString => false
              | String c3 s3 => space3 c1 c2 c3 && blank s3
              end
        end
  end.

(** [d.replace(r'^\s*$', pd.NA, regex=True)]: a new frame in which the text
    cells that match are missing; other cells are kept. *)
Definition replace_blank (d : DataFrame) : DataFrame :=
  {| columns := columns d;
     rows := map (map (fun c => match c with
                                | Text s => if blank s then NA else c
                                | _ => c
                                end)) (rows d) |}.

(** [d.dropna(how='all')]: a new frame without the rows whose cells are all
    missing. *)
Definition dropna_all (d : DataFrame) : DataFrame :=
  {| columns := columns d;
     rows := filter (fun r => negb (forallb is_na r)) (rows d) |}.

(** [len(d)] *)
Definition len (d : DataFrame) : nat := List.length (rows d).

End Pandas.

(** ** Exceptions, the state of a run and the monad of the program *)

Module Run.

Import Stream Pandas.

Inductive exn :=
| ValueError (msg : string)
| UnboundLocalError (var : string)
| OtherException (msg : string).

(** [str(e)] *)
Definition exn_str (e : exn) : string :=
  match e with
  | ValueError msg => msg
  | UnboundLocalError var =>
      ("cannot access local variable '" ++ var
        ++ "' where it is not associated with a value")%string
  | OtherException msg => msg
  end.

(** The functions of the program a run may enter. *)
Inductive fn :=
| Fn_validate_file_name
| Fn_validate_file_size
| Fn_read_csv
| Fn_read_txt_file
| Fn_validate_headers
| Fn_check_null_values
| Fn_check_empty_rows.

Definition ref := nat.

(** A row of the table [ValidationResults]. *)
Record db_row := { row_file_name : string; validation_rule : string; result : string }.

Record state := {
  file : stream;            (* report_file.file *)
  heap : list DataFrame;    (* the frames allocated so far *)
  db : list db_row;         (* ValidationResults, oldest first *)
  calls : list fn           (* ghost: functions entered, oldest first *)
}.

Definition M (A : Type) : Type := state -> (exn + A) * state.

Definition ret {A} (a : A) : M A := fun s => (inr a, s).

Definition raise {A} (e : exn) : M A := fun s => (inl e, s).

Definition bind {A B} (m : M A) (f : A -> M B) : M B :=
  fun s => match m s with
           | (inr a, s') => f a s'
           | (inl e, s') => (inl e, s')
           end.

Definition get_file : M stream := fun s => (inr (file s), s).

Definition put_file (f : stream) : M unit := fun s =>
  (inr tt, {| file := f; heap := heap s; db := db s; calls := calls s |}).

Definition alloc (d : DataFrame) : M ref := fun s =>
  (inr (List.length (heap s)),
   {| file := file s; heap := heap s ++ [d]; db := db s; calls := calls s |}).

Definition deref (r : ref) : M DataFrame := fun s =>
  match nth_error (heap s) r with
  | Some d => (inr d, s)
  | None => (inl (OtherException "dangling reference"), s)
  end.

(** Overwriting the frame that a reference names. *)
Definition store (r : ref) (d : DataFrame) : M unit := fun s =>
  match nth_error (heap s) r with
  | Some _ =>
      (inr tt,
       {| file := file s;
          heap := firstn r (heap s) ++ d :: skipn (S r) (heap s);
          db := db s; calls := calls s |})
  | None => (inl (OtherException "dangling reference"), s)
  end.

Definition insert_row (r : db_row) : M unit := fun s =>
  (inr tt, {| file := file s; heap := heap s; db := db s ++ [r]; calls := calls s |}).

Definition enter (f : fn) : M unit := fun s =>
  (inr tt, {| file := file s; heap := heap s; db := db s; calls := calls s ++ [f] |}).

End Run.

Declare Scope run_scope.
Delimit Scope run_scope with run.
Notation "x <- m ;; k" := (Run.bind m (fun x => k))
  (at level 61, m at next level, right associativity) : run_scope.
Notation "m ;; k" := (Run.bind m (fun _ => k))
  (at level 61, right associativity) : run_scope.

(** ** The program *)

Module FileValidation.

Import Stream Pandas Run.
Local Open Scope run_scope.

Definition ALLOWED_HEADERS : list string :=
  ["CUSTOMER"; "ADDRESS"; "PRODUCT"; "PRODUCT_TYPE"; "PRICE"].

Definition nl : string := String "010"%char EmptyString.
Definition dquote : string := String "034"%char EmptyString.
Definition tab : ascii := "009"%char.

(** [try: body / except Exception: handler] *)
Definition try_except {A} (body : M A) (handler : exn -> M A) : M A :=
  fun s => match body s with
           | (inr a, s') => (inr a, s')
           | (inl e, s') => handler e s'
           end.

(** Entering a function of the program (ghost). *)
Definition call {A} (f : fn) (body : M A) : M A := enter f ;; body.

(** Reading a local variable that an earlier branch may have left unbound. *)
Definition local {A} (name : string) (v : option A) : M A :=
  match v with
  | Some a => ret a
  | None => raise (UnboundLocalError name)
  end.

Fixpoint for_each {A} (l : list A) (body : A -> M unit) : M unit :=
  match l with
  | [] => ret tt
  | x :: l' => body x ;; for_each l' body
  end.

(** The methods of a frame that the program calls.  [replace] and [dropna]
    take [inplace]: with it the frame itself is overwritten and [None] is
    returned, without it (the default, which the program uses) the result is
    a new frame. *)

(** [self.replace(r'^\s*$', pd.NA, regex=True, inplace=inplace)] *)
Definition df_replace_blank (self : ref) (inplace : bool) : M (option ref) :=
  d <- deref self ;;
  if inplace then store self (replace_blank d) ;; ret None
  else r <- alloc (replace_blank d) ;; ret (Some r).

(** [self.dropna(how='all', inplace=inplace)] *)
Definition df_dropna_all (self : ref) (inplace : bool) : M (option ref) :=
  d <- deref self ;;
  if inplace then store self (dropna_all d) ;; ret None
  else r <- alloc (dropna_all d) ;; ret (Some r).

(** [self.isnull()] *)
Definition df_isnull (self : ref) : M ref :=
  d <- deref self ;; alloc (isnull d).

(** [self.values.any()] *)
Definition df_values_any (self : ref) : M bool :=
  d <- deref self ;; ret (values_any d).

(** [len(self)] *)
Definition df_len (self : ref) : M nat :=
  d <- deref self ;; ret (len d).

(** Using the result of a method as a frame: [None] has no methods. *)
Definition frame_of (v : option ref) : M ref :=
  match v with
  | Some r => ret r
  | None => raise (OtherException "'NoneType' object is not a frame")
  end.

(** The class [[a-zA-Z0-9 ]]. *)
Definition name_char (c : ascii) : bool :=
  Str.is_lower c || Str.is_upper c || Str.is_digit c || Ascii.eqb c " "%char.

(** What is left of [s] after its longest run of characters of the class. *)
Fixpoint after_run (p : ascii -> bool) (s : string) : string :=
  match s with
  | EmptyString => EmptyString
  | String c s' => if p c then after_run p s' else s
  end.

(** [re.match(r"^[a-zA-Z0-9 ]+$", s)]: at least one character of the class;
    the run is greedy, and a shorter run would be followed by a character of
    the class, where [$] cannot match, so the longest run decides; [$]
    (without MULTILINE) matches at the end of the text and also just before
    a newline that is its last character. *)
Definition re_match_name (s : string) : bool :=
  match s with
  | EmptyString => false
  | String c s' =>
      name_char c &&
      (let rest := after_run name_char s' in
       String.eqb rest EmptyString || String.eqb rest nl)
  end.

(** ['❌' in result] *)
Definition failed (result : string) : bool := Str.contains "❌" result.

Inductive response :=
| TypeMismatch (validation_message : string)
| FileRejected (failing : list string)
| FileAccepted (validation_results : list string)
| CaughtValueError (ve : string)
| CaughtException (e : exn).

Definition li (result : string) : string :=
  ("<li>" ++ result ++ "</li>")%string.

(** The content of the JSONResponse: its one key and the text under it. *)
Definition content_of (r : response) : string * string :=
  match r with
  | TypeMismatch validation_message => ("error", validation_message)
  | FileRejected failing =>
      ("error",
       (nl ++ "            <h3 style=" ++ dquote ++ "color: red;" ++ dquote
           ++ ">File Rejected:</h3>" ++ nl
           ++ "            <ul>" ++ nl
           ++ "                " ++ Str.join (map li failing) ++ nl
           ++ "            </ul>" ++ nl
           ++ "            ")%string)
  | FileAccepted validation_results =>
      ("message",
       (nl ++ "        <h3 style=" ++ dquote ++ "color: #4CAF50;" ++ dquote
           ++ ">File Validation Results:</h3>" ++ nl
           ++ "        <ul>" ++ nl
           ++ "            " ++ Str.join (map li validation_results) ++ nl
           ++ "        </ul>" ++ nl
           ++ "        ")%string)
  | CaughtValueError ve => ("error", (ve ++ " ❌")%string)
  | CaughtException e =>
      ("error", ("An unexpected error occurred: " ++ exn_str e ++ " ❌")%string)
  end.

(** [except ValueError as ve: ...] and then [except Exception as e: ...]. *)
Definition handlers (e : exn) : response :=
  match e with
  | ValueError msg => CaughtValueError msg
  | _ => CaughtException e
  end.

Section Program.

(** The flavour of [os.path] on the host. *)
Variable os_path : OsPath.flavour.

(** [str.lower], which folds every cased letter of Unicode by the tables of
    the interpreter: a parameter, on the UTF-8 bytes of the text. *)
Variable str_lower : string -> string.

(** [pandas.read_csv(input, delimiter=d, skip_blank_lines=False)]: the frame
    or the exception, and how many bytes of the input it consumed. *)
Variable pd_read_csv : list byte -> ascii -> (exn + DataFrame) * nat.

Definition validate_file_name (file_name : string) : string :=
  let base_name := fst (OsPath.splitext os_path file_name) in
  if re_match_name base_name then "File name is valid. ✅"
  else "File name is invalid. ❌".

(** [tell() / 1024] is a float; the quotient of a byte length by 1024, a
    power of two, is exact in binary floating point, so the test [<= 10] is
    the comparison of the rationals. *)
Definition validate_file_size : M string :=
  f <- get_file ;;
  put_file (seek_end f) ;;
  f <- get_file ;;
  let file_size_kb := (inject_Z (Z.of_nat (tell f)) / 1024)%Q in
  put_file (seek 0 f) ;;
  if Qle_bool file_size_kb 10 then ret "File size is valid. ✅"
  else ret "File size must be under 10 KB. ❌".

Definition validate_headers (data : ref) : M string :=
  d <- deref data ;;
  if Str.list_eqb (columns d) ALLOWED_HEADERS then ret "Headers matched. ✅"
  else ret "Headers are not matching. ❌".

Definition check_null_values (data : ref) : M string :=
  mask <- df_isnull data ;;
  any <- df_values_any mask ;;
  if any then ret "Uploaded file contains null values. ❌"
  else ret "Uploaded file does not contain null values. ✅".

Definition check_empty_rows (data : ref) : M string :=
  replaced <- df_replace_blank data false ;;
  replaced <- frame_of replaced ;;
  data_cleaned <- df_dropna_all replaced false ;;
  data_cleaned <- frame_of data_cleaned ;;
  len_cleaned <- df_len data_cleaned ;;
  len_data <- df_len data ;;
  if (len_cleaned <? len_data)%nat
  then ret "Uploaded file contains empty rows. ❌"
  else ret "Uploaded file does not contain empty rows. ✅".

(** [pd.read_csv(file, delimiter=..., skip_blank_lines=False)] on the stream
    of the run: pandas reads from the current position. *)
Definition read_csv (delimiter : ascii) : M ref :=
  f <- get_file ;;
  let '(r, used) := pd_read_csv (remaining f) delimiter in
  put_file (advance used f) ;;
  match r with
  | inl e => raise e
  | inr d => alloc d
  end.

Definition default_delimiters : list ascii := [tab; ","%char; " "%char].

Fixpoint read_txt_file (delimiters : list ascii) : M ref :=
  match delimiters with
  | [] =>
      raise (ValueError
        "Failed to parse the .txt file with common delimiters (tab, comma, space).")
  | delimiter :: delimiters' =>
      found <- try_except
                 (f <- get_file ;;
                  put_file (seek 0 f) ;;
                  df <- call Fn_read_csv (read_csv delimiter) ;;
                  d <- deref df ;;
                  if Str.list_eqb (columns d) ALLOWED_HEADERS
                  then ret (Some df) else ret None)
                 (fun _ => ret None) ;;
      match found with
      | Some df => ret df
      | None => read_txt_file delimiters'
      end
  end.

Definition insert_validation_result
    (file_name validation_rule result : string) : M unit :=
  insert_row {| row_file_name := file_name;
                validation_rule := validation_rule;
                result := result |}.

(** The [if]/[elif] that reads the content by type (lines 113-116).  It has
    no [else]: for any other extension the local [data] stays unbound. *)
Definition read_by_type (file_extension : string) : M (option ref) :=
  if String.eqb file_extension "csv" then
    d <- call Fn_read_csv (read_csv ","%char) ;; ret (Some d)
  else if String.eqb file_extension "txt" then
    d <- call Fn_read_txt_file (read_txt_file default_delimiters) ;;
    ret (Some d)
  else ret None.

(** The body of the [try] of [process_files]. *)
Definition process_files_body (file_type filename : string) : M response :=
  let file_extension :=
    str_lower (Str.drop1 (snd (OsPath.splitext os_path filename))) in
  if negb (String.eqb file_extension file_type) then
    let validation_message :=
      ("File type mismatch. Expected " ++ file_type ++ " file. ❌")%string in
    insert_validation_result filename "File Type" validation_message ;;
    ret (TypeMismatch validation_message)
  else
    let validation_results := [] in
    file_name_validation <-
      call Fn_validate_file_name (ret (validate_file_name filename)) ;;
    insert_validation_result filename "File Name" file_name_validation ;;
    let validation_results := validation_results ++ [file_name_validation] in
    file_size_validation <- call Fn_validate_file_size validate_file_size ;;
    insert_validation_result filename "File Size" file_size_validation ;;
    let validation_results := validation_results ++ [file_size_validation] in
    data <- read_by_type file_extension ;;
    d <- local "data" data ;;
    headers_validation <- call Fn_validate_headers (validate_headers d) ;;
    insert_validation_result filename "Headers" headers_validation ;;
    let validation_results := validation_results ++ [headers_validation] in
    d <- local "data" data ;;
    null_values_check <- call Fn_check_null_values (check_null_values d) ;;
    insert_validation_result filename "Null Values" null_values_check ;;
    let validation_results := validation_results ++ [null_values_check] in
    d <- local "data" data ;;
    empty_rows_check <- call Fn_check_empty_rows (check_empty_rows d) ;;
    insert_validation_result filename "Empty Rows" empty_rows_check ;;
    let validation_results := validation_results ++ [empty_rows_check] in
    if existsb failed validation_results then
      ret (FileRejected (filter failed validation_results))
    else
      for_each validation_results
        (fun result => insert_validation_result filename "Validation" result) ;;
      ret (FileAccepted validation_results).

(** [process_files]: the body under its two handlers. *)
Definition process_files (file_type filename : string) (s : state)
  : response * state :=
  match process_files_body file_type filename s with
  | (inr r, s') => (r, s')
  | (inl e, s') => (handlers e, s')
  end.

End Program.

End FileValidation.

(** ** A small reader to run the model on concrete files

    [Demo.read_csv] stands for [pandas.read_csv] on plain text without
    quoting: lines are rows, the first line is the header, an empty field is
    missing, a short row is filled up with missing cells and a blank line is
    kept as a row of missing cells.  It is used to instantiate [pd_read_csv]
    in the examples only; the theorems hold for every reader. *)

Module Demo.

Import Pandas Run.

Fixpoint split_on (sep : ascii) (s : string) : list string :=
  match s with
  | EmptyString => [EmptyString]
  | String c s' =>
      let parts := split_on sep s' in
      if Ascii.eqb c sep then EmptyString :: parts
      else match parts with
           | p :: ps => String c p :: ps
           | [] => [String c EmptyString]
           end
  end.

Definition lines (s : string) : list string :=
  let ls := split_on "010"%char s in
  match rev ls with
  | EmptyString :: r => rev r
  | _ => ls
  end.

Definition field (s : string) : cell :=
  if String.eqb s EmptyString then NA else Text s.

Definition pad (n : nat) (r : list cell) : list cell :=
  r ++ repeat NA (n - List.length r).

Definition read_csv (input : list byte) (delimiter : ascii)
  : (exn + DataFrame) * nat :=
  match lines (string_of_list_byte input) with
  | [] => (inl (ValueError "No columns to parse from file"), 0%nat)
  | header :: body =>
      let cols := split_on delimiter header in
      let rs := map (fun l => map field (split_on delimiter l)) body in
      if forallb (fun r => (List.length r <=? List.length cols)%nat) rs then
        (inr {| columns := cols; rows := map (pad (List.length cols)) rs |},
         List.length input)
      else (inl (ValueError "Error tokenizing data"), List.length input)
  end.

(** The state in which a request finds the server: the upload at position
    0, no frame, an empty table. *)
Definition upload (text : string) : state :=
  {| file := {| Stream.content := list_byte_of_string text;
                Stream.position := 0 |};
     heap := []; db := []; calls := [] |}.

Definition line (l : string) : string := (l ++ FileValidation.nl)%string.

Definition report1 : string :=
  (line "CUSTOMER,ADDRESS,PRODUCT,PRODUCT_TYPE,PRICE"
   ++ line "Ann,1 Main St,Pen,Office,3"
   ++ line "Bob,2 High St,Ink,Office,7")%string.

Definition report1_frame : DataFrame :=
  {| columns := ["CUSTOMER"; "ADDRESS"; "PRODUCT"; "PRODUCT_TYPE"; "PRICE"];
     rows := [[Text "Ann"; Text "1 Main St"; Text "Pen"; Text "Office";
               Text "3"];
              [Text "Bob"; Text "2 High St"; Text "Ink"; Text "Office";
               Text "7"]] |}.

(** A text that no candidate delimiter splits into the required header. *)
Definition semicolons : string :=
  (line "CUSTOMER;ADDRESS;PRODUCT;PRODUCT_TYPE;PRICE"
   ++ line "Ann;1 Main St;Pen;Office;3")%string.

(** A text whose header is the required one under the space only. *)
Definition spaced : string :=
  (line "CUSTOMER ADDRESS PRODUCT PRODUCT_TYPE PRICE"
   ++ line "Ann Leeds Pen Office 3")%string.

(** A frame with a missing cell and a row of blanks, and a store that holds
    it next to another frame. *)
Definition gappy_frame : DataFrame :=
  {| columns := ["CUSTOMER"; "ADDRESS"; "PRODUCT"; "PRODUCT_TYPE"; "PRICE"];
     rows := [[Text "Ann"; NA; Text "Pen"; Text "Office"; Num 3];
              [Text " "; NA; Text ""; NA; NA]] |}.

(** An upload of [n] zero bytes. *)
Definition blob (n : nat) : state :=
  {| file := {| Stream.content := repeat Byte.x00 n; Stream.position := 0 |};
     heap := []; db := []; calls := [] |}.

Definition loaded : state :=
  {| file := {| Stream.content := []; Stream.position := 0 |};
     heap := [report1_frame; gappy_frame]; db := []; calls := [] |}.

End Demo.

(** ** What the specification speaks of, in terms of the inputs *)

Module Spec.

Import Stream Pandas Run FileValidation.

(** The three rules that read the parsed table. *)
Inductive table_rule := Headers | NullValues | EmptyRows.

(** The verdicts as functions of the inputs alone. *)
Definition size_verdict (byte_length : nat) : string :=
  if (byte_length <=? 10 * 1024)%nat then "File size is valid. ✅"
  else "File size must be under 10 KB. ❌".

Definition headers_verdict (d : DataFrame) : string :=
  if Str.list_eqb (columns d) ALLOWED_HEADERS then "Headers matched. ✅"
  else "Headers are not matching. ❌".

Definition null_verdict (d : DataFrame) : string :=
  if existsb (existsb is_na) (rows d)
  then "Uploaded file contains null values. ❌"
  else "Uploaded file does not contain null values. ✅".

Definition blank_cell (c : cell) : bool :=
  match c with
  | NA => true
  | Text s => blank s
  | _ => false
  end.

Definition empty_rows_verdict (d : DataFrame) : string :=
  if existsb (forallb blank_cell) (rows d)
  then "Uploaded file contains empty rows. ❌"
  else "Uploaded file does not contain empty rows. ✅".

Definition verdict_of (rule : table_rule) (d : DataFrame) : string :=
  match rule with
  | Headers => headers_verdict d
  | NullValues => null_verdict d
  | EmptyRows => empty_rows_verdict d
  end.

(** The text of the failure of the extension check. *)
Definition mismatch_message (file_type : string) : string :=
  ("File type mismatch. Expected " ++ file_type ++ " file. ❌")%string.

Definition parse_failure : string :=
  "Failed to parse the .txt file with common delimiters (tab, comma, space).".

Definition row (file_name rule result : string) : db_row :=
  {| row_file_name := file_name; validation_rule := rule; result := result |}.

(** Entering one of the two readers; entering one of the table rules. *)
Definition parse_fn (f : fn) : Prop := f = Fn_read_csv \/ f = Fn_read_txt_file.

Definition table_fn (f : fn) : Prop :=
  f = Fn_validate_headers \/ f = Fn_check_null_values
  \/ f = Fn_check_empty_rows.

Section WithHost.

Variable os_path : OsPath.flavour.
Variable pd_read_csv : list byte -> ascii -> (exn + DataFrame) * nat.

(** The actual extension of a file name, without its dot. *)
Definition actual_extension (filename : string) : string :=
  Str.drop1 (snd (OsPath.splitext os_path filename)).

(** The base name: the file name with the extension stripped. *)
Definition base_name (filename : string) : string :=
  fst (OsPath.splitext os_path filename).

(** Running one table rule, and a sequence of them, on one frame. *)
Definition run_rule (rule : table_rule) (data : ref) : M string :=
  match rule with
  | Headers => validate_headers data
  | NullValues => check_null_values data
  | EmptyRows => check_empty_rows data
  end.

Fixpoint run_rules (rules : list table_rule) (data : ref) : M (list string) :=
  match rules with
  | [] => ret []
  | rule :: rules' =>
      (v <- run_rule rule data ;;
       vs <- run_rules rules' data ;;
       ret (v :: vs))%run
  end.

(** The txt parser as the specification words it: the candidates are tried
    in order on the whole input, and the first whose column names are the
    required schema gives the table; without one, the parse fails. *)
Definition schema_matches (r : exn + DataFrame) : bool :=
  match r with
  | inr d => Str.list_eqb (columns d) ALLOWED_HEADERS
  | inl _ => false
  end.

Definition first_matching (input : list byte) (candidates : list ascii)
  : option ascii :=
  find (fun delimiter => schema_matches (fst (pd_read_csv input delimiter)))
       candidates.

Definition parse_candidates (input : list byte) (candidates : list ascii)
  : exn + DataFrame :=
  match first_matching input candidates with
  | Some delimiter => fst (pd_read_csv input delimiter)
  | None => inl (ValueError parse_failure)
  end.

Definition parse_txt (input : list byte) : exn + DataFrame :=
  parse_candidates input [tab; ","%char; " "%char].

(** The parse step of the pipeline for a declared type. *)
Definition parse (file_type : string) (input : list byte)
  : option (exn + DataFrame) :=
  if String.eqb file_type "csv" then Some (fst (pd_read_csv input ","%char))
  else if String.eqb file_type "txt" then Some (parse_txt input)
  else None.

End WithHost.

End Spec.

(** ** Further notions used to describe a run *)

Module Outcome.

Import Stream Pandas Run FileValidation Spec.

(** Is the response the one of line 154, the acceptance? *)
Definition is_accepted (r : response) : bool :=
  match r with
  | FileAccepted _ => true
  | _ => false
  end.

(** The values of the column [validation_rule] that the program writes. *)
Definition rule_names : list string :=
  ["File Type"; "File Name"; "File Size"; "Headers"; "Null Values";
   "Empty Rows"; "Validation"].

(** The five results of a run in which every rule passed. *)
Definition passing_results : list string :=
  ["File name is valid. ✅"; "File size is valid. ✅"; "Headers matched. ✅";
   "Uploaded file does not contain null values. ✅";
   "Uploaded file does not contain empty rows. ✅"].

(** How many candidates the loop of [read_txt_file] gets to: those up to and
    with the first whose columns are the required schema, or all of them. *)
Fixpoint attempts
    (pd_read_csv : list byte -> ascii -> (exn + DataFrame) * nat)
    (input : list byte) (candidates : list ascii) : nat :=
  match candidates with
  | [] => 0
  | delimiter :: candidates' =>
      if schema_matches (fst (pd_read_csv input delimiter)) then 1
      else S (attempts pd_read_csv input candidates')
  end.

(** [c in s] for a character. *)
Fixpoint has_char (c : ascii) (s : string) : bool :=
  match s with
  | EmptyString => false
  | String d s' => Ascii.eqb d c || has_char c s'
  end.

(** A frame in which the second row is what a blank line of the file
    becomes, and a store that holds only that frame. *)
Definition blank_line_frame : DataFrame :=
  {| columns := ALLOWED_HEADERS;
     rows := [[Text "Ann"; Text "1 Main St"; Text "Pen"; Text "Office";
               Num 3];
              [NA; NA; NA; NA; NA]] |}.

(** The no-break space U+00A0 and the zero-width space U+200B (which is not
    white space), in UTF-8; a frame whose second row holds only no-break
    spaces. *)
Definition nbsp : string :=
  String "194"%char (String "160"%char EmptyString).

Definition zwsp : string :=
  String "226"%char (String "128"%char (String "139"%char EmptyString)).

Definition nbsp_frame : DataFrame :=
  {| columns := ALLOWED_HEADERS;
     rows := [[Text "Ann"; Text "1 Main St"; Text "Pen"; Text "Office";
               Num 3];
              [Text nbsp; Text nbsp; Text nbsp; Text nbsp; Text nbsp]] |}.

Definition store_of (d : DataFrame) : state :=
  {| file := {| Stream.content := []; Stream.position := 0 |};
     heap := [d]; db := []; calls := [] |}.

End Outcome.

(** * Properties *)

(** ** Strings and paths *)

Module StrFacts.

Import Str.

Lemma lower_char_idem c : lower_char (lower_char c) = lower_char c.
Proof.
  destruct c as [[] [] [] [] [] [] [] []]; reflexivity.
Qed.

Lemma lower_idem s : lower (lower s) = lower s.
Proof.
  induction s as [|c s IH]; simpl; [reflexivity|].
  now rewrite lower_char_idem, IH.
Qed.

Lemma list_eqb_eq a b : list_eqb a b = true <-> a = b.
Proof.
  revert b; induction a as [|x a IH]; intros [|y b]; simpl; split;
    try discriminate; try reflexivity.
  - intros H. apply andb_prop in H as [H1 H2].
    apply String.eqb_eq in H1. apply IH in H2. now subst.
  - intros H. injection H as -> ->.
    rewrite String.eqb_refl. simpl. now apply IH.
Qed.

Lemma prefix_refl s : prefix s s = true.
Proof.
  induction s as [|c s IH]; simpl; [reflexivity|].
  destruct (ascii_dec c c); [assumption | contradiction].
Qed.

Lemma contains_self s : contains s s = true.
Proof.
  destruct s; simpl; [reflexivity|].
  destruct (ascii_dec a a); [|contradiction].
  now rewrite prefix_refl.
Qed.

Lemma contains_cons needle c hay :
  contains needle hay = true -> contains needle (String c hay) = true.
Proof.
  intros H. simpl. destruct needle; [reflexivity|].
  destruct (ascii_dec a c); [|assumption].
  destruct (prefix needle hay); [reflexivity | assumption].
Qed.

Lemma contains_append needle pre hay :
  contains needle hay = true -> contains needle (pre ++ hay) = true.
Proof.
  intros H. induction pre as [|c pre IH]; simpl append; [assumption|].
  now apply contains_cons.
Qed.

End StrFacts.

Example splitext_report :
  OsPath.splitext OsPath.ntpath "Report1.csv" = ("Report1", ".csv").
Proof. reflexivity. Qed.

Example splitext_hidden :
  OsPath.splitext OsPath.posixpath "dir.d/.bashrc" = ("dir.d/.bashrc", "").
Proof. reflexivity. Qed.

Example splitext_two_dots :
  OsPath.splitext OsPath.posixpath "a.tar.GZ" = ("a.tar", ".GZ").
Proof. reflexivity. Qed.

Example splitext_nt_dir :
  OsPath.splitext OsPath.ntpath "c:\up.load\name" = ("c:\up.load\name", "").
Proof. reflexivity. Qed.

Example failed_mark : FileValidation.failed "File name is invalid. ❌" = true.
Proof. reflexivity. Qed.

Example passed_mark : FileValidation.failed "File name is valid. ✅" = false.
Proof. reflexivity. Qed.

(** ** One step of the program at a time *)

Module Steps.

Import Stream Pandas Run FileValidation Spec.

Ltac run_ops :=
  cbv [bind ret raise call enter get_file put_file alloc deref store
       insert_row insert_validation_result local try_except
       df_replace_blank df_dropna_all df_isnull df_values_any df_len
       frame_of];
  cbn [file heap db calls content position fst snd].

Lemma nth_error_last {A} (l : list A) (x : A) :
  nth_error (l ++ [x]) (List.length l) = Some x.
Proof.
  rewrite nth_error_app2 by lia. now rewrite Nat.sub_diag.
Qed.

Lemma nth_error_keep {A} (l l' : list A) (r : nat) (x : A) :
  nth_error l r = Some x -> nth_error (l ++ l') r = Some x.
Proof.
  intros H. rewrite nth_error_app1; [assumption|].
  apply nth_error_Some. congruence.
Qed.

(** [tell() / 1024 <= 10], a comparison of rationals, is a comparison of the
    byte length with 10240. *)
Lemma size_test (n : nat) :
  Qle_bool (inject_Z (Z.of_nat n) / 1024) 10 = (n <=? 10 * 1024)%nat.
Proof.
  destruct (Nat.leb_spec n (10 * 1024)) as [H|H].
  - apply Qle_bool_iff. unfold Qle, Qdiv, Qmult, Qinv, inject_Z; simpl. lia.
  - destruct (Qle_bool _ _) eqn:E; [|reflexivity].
    apply Qle_bool_iff in E.
    unfold Qle, Qdiv, Qmult, Qinv, inject_Z in E; simpl in E. lia.
Qed.

Lemma isnull_any (d : DataFrame) :
  values_any (isnull d) = existsb (existsb is_na) (rows d).
Proof.
  unfold values_any, isnull; simpl.
  induction (rows d) as [|r l IH]; simpl; [reflexivity|].
  rewrite IH. f_equal.
  induction r as [|c r IHr]; simpl; [reflexivity|]. now rewrite IHr.
Qed.

Lemma filter_shorter {A} (p : A -> bool) (l : list A) :
  (List.length (filter p l) <? List.length l)%nat
  = existsb (fun x => negb (p x)) l.
Proof.
  assert (Hle : forall l', (List.length (filter p l') <= List.length l')%nat)
    by (intros l'; apply filter_length_le).
  induction l as [|x l IH]; simpl; [reflexivity|].
  destruct (p x); simpl.
  - exact IH.
  - apply Nat.ltb_lt. specialize (Hle l). lia.
Qed.

Lemma all_na_replaced (r : list cell) :
  forallb is_na
    (map (fun c => match c with
                   | Text s => if blank s then NA else c
                   | _ => c
                   end) r)
  = forallb blank_cell r.
Proof.
  induction r as [|c r IH]; simpl; [reflexivity|].
  rewrite IH. f_equal. destruct c; simpl; try reflexivity.
  now destruct (blank s).
Qed.

Lemma cleaned_shorter (d : DataFrame) :
  (len (dropna_all (replace_blank d)) <? len d)%nat
  = existsb (forallb blank_cell) (rows d).
Proof.
  unfold len, dropna_all, replace_blank; simpl.
  set (f := map (fun c => match c with
                          | Text s => if blank s then NA else c
                          | _ => c
                          end)).
  replace (List.length (rows d)) with (List.length (map f (rows d)))
    by apply length_map.
  rewrite filter_shorter. subst f.
  induction (rows d) as [|r l IH]; simpl; [reflexivity|].
  now rewrite IH, negb_involutive, all_na_replaced.
Qed.

Section WithHost.

Variable os_path : OsPath.flavour.
Variable str_lower : string -> string.
Variable pd_read_csv : list byte -> ascii -> (exn + DataFrame) * nat.

Lemma validate_file_size_run (s : state) :
  validate_file_size s
  = (inr (size_verdict (List.length (content (file s)))),
     {| file := {| content := content (file s); position := 0 |};
        heap := heap s; db := db s; calls := calls s |}).
Proof.
  unfold validate_file_size. run_ops.
  cbv [tell seek_end seek]. cbn [content position].
  rewrite size_test. unfold size_verdict.
  now destruct (_ <=? _)%nat.
Qed.

Lemma validate_headers_run (data : ref) (d : DataFrame) (s : state) :
  nth_error (heap s) data = Some d ->
  validate_headers data s = (inr (headers_verdict d), s).
Proof.
  intros H. unfold validate_headers. run_ops. rewrite H.
  unfold headers_verdict. now destruct (Str.list_eqb _ _).
Qed.

Lemma check_null_values_run (data : ref) (d : DataFrame) (s : state) :
  nth_error (heap s) data = Some d ->
  check_null_values data s
  = (inr (null_verdict d),
     {| file := file s; heap := heap s ++ [isnull d];
        db := db s; calls := calls s |}).
Proof.
  intros H. unfold check_null_values. run_ops. rewrite H. run_ops.
  rewrite nth_error_last. run_ops. rewrite isnull_any.
  unfold null_verdict. now destruct (existsb _ _).
Qed.

Lemma check_empty_rows_run (data : ref) (d : DataFrame) (s : state) :
  nth_error (heap s) data = Some d ->
  check_empty_rows data s
  = (inr (empty_rows_verdict d),
     {| file := file s;
        heap := (heap s ++ [replace_blank d])
                  ++ [dropna_all (replace_blank d)];
        db := db s; calls := calls s |}).
Proof.
  intros H. unfold check_empty_rows. run_ops. rewrite H. run_ops.
  rewrite nth_error_last. run_ops. rewrite nth_error_last. run_ops.
  rewrite (nth_error_keep _ [dropna_all (replace_blank d)] _ d)
    by (now apply nth_error_keep).
  run_ops. unfold len at 1 2. fold (len (dropna_all (replace_blank d))).
  fold (len d). rewrite cleaned_shorter.
  unfold empty_rows_verdict. now destruct (existsb _ _).
Qed.

Lemma read_csv_run (delimiter : ascii) (s : state) :
  read_csv pd_read_csv delimiter s
  = let out := pd_read_csv (remaining (file s)) delimiter in
    let f' := advance (snd out) (file s) in
    match fst out with
    | inl e =>
        (inl e,
         {| file := f'; heap := heap s; db := db s; calls := calls s |})
    | inr d =>
        (inr (List.length (heap s)),
         {| file := f'; heap := heap s ++ [d]; db := db s; calls := calls s |})
    end.
Proof.
  unfold read_csv. run_ops.
  destruct (pd_read_csv (remaining (file s)) delimiter) as [[e|d] used];
    reflexivity.
Qed.

(** One turn of the loop of [read_txt_file]: the stream is rewound, so the
    reader is given the whole content whatever the position was. *)
Lemma read_txt_file_cons (delimiter : ascii) (rest : list ascii) (s : state) :
  read_txt_file pd_read_csv (delimiter :: rest) s
  = let input := content (file s) in
    let out := pd_read_csv input delimiter in
    let f' := advance (snd out) {| content := input; position := 0 |} in
    let cs := calls s ++ [Fn_read_csv] in
    match fst out with
    | inl _ =>
        read_txt_file pd_read_csv rest
          {| file := f'; heap := heap s; db := db s; calls := cs |}
    | inr d =>
        if Str.list_eqb (columns d) ALLOWED_HEADERS then
          (inr (List.length (heap s)),
           {| file := f'; heap := heap s ++ [d]; db := db s; calls := cs |})
        else
          read_txt_file pd_read_csv rest
            {| file := f'; heap := heap s ++ [d]; db := db s; calls := cs |}
    end.
Proof.
  cbn [read_txt_file]. run_ops. rewrite read_csv_run.
  cbv [seek remaining]. cbn [file heap db calls content position skipn].
  destruct (fst (pd_read_csv (content (file s)) delimiter)) as [e|d];
    [reflexivity|].
  run_ops. rewrite nth_error_last.
  destruct (Str.list_eqb (columns d) ALLOWED_HEADERS); reflexivity.
Qed.

(** [read_txt_file] against the parser of the specification. *)
Lemma read_txt_file_run (delimiters : list ascii) : forall s : state,
  exists (res : exn + ref) (s' : state) (junk : list DataFrame) (k : nat),
    read_txt_file pd_read_csv delimiters s = (res, s')
    /\ content (file s') = content (file s)
    /\ db s' = db s
    /\ heap s' = heap s ++ junk
    /\ calls s' = calls s ++ repeat Fn_read_csv k
    /\ match parse_candidates pd_read_csv (content (file s)) delimiters with
       | inr d => exists data, res = inr data
                               /\ nth_error (heap s') data = Some d
       | inl e => res = inl e
       end.
Proof.
  induction delimiters as [|delimiter rest IH]; intros s.
  - exists (inl (ValueError parse_failure)), s, [], 0%nat.
    cbn. now rewrite !app_nil_r.
  - rewrite read_txt_file_cons.
    unfold parse_candidates, first_matching. cbn [find].
    destruct (pd_read_csv (content (file s)) delimiter) as [out used] eqn:E.
    cbn [fst snd schema_matches].
    set (f' := advance used _).
    destruct out as [e|d]; cbn [schema_matches].
    + destruct (IH {| file := f'; heap := heap s; db := db s;
                      calls := calls s ++ [Fn_read_csv] |})
        as (res & s' & junk & k & Hrun & Hc & Hdb & Hheap & Hcalls & Hres).
      cbn [file heap db calls content] in *.
      exists res, s', junk, (S k). repeat split; try assumption.
      rewrite Hcalls, <- app_assoc. reflexivity.
    + destruct (Str.list_eqb (columns d) ALLOWED_HEADERS) eqn:Hm.
      * eexists _, _, [d], 1%nat. repeat split; cbn [file heap db calls content].
        rewrite E. cbn [fst]. exists (List.length (heap s)). split; [reflexivity|].
        apply nth_error_last.
      * destruct (IH {| file := f'; heap := heap s ++ [d]; db := db s;
                        calls := calls s ++ [Fn_read_csv] |})
          as (res & s' & junk & k & Hrun & Hc & Hdb & Hheap & Hcalls & Hres).
        cbn [file heap db calls content] in *.
        exists res, s', (d :: junk), (S k). repeat split; try assumption.
        -- rewrite Hheap, <- app_assoc. reflexivity.
        -- rewrite Hcalls, <- app_assoc. reflexivity.
Qed.

Lemma parse_fn_repeat (k : nat) : Forall parse_fn (repeat Fn_read_csv k).
Proof.
  induction k; cbn; constructor; [now left | assumption].
Qed.

(** The read step against the parser of the specification, from a stream at
    position 0. *)
Lemma read_by_type_run (file_extension : string) (s : state) :
  position (file s) = 0%nat ->
  exists (res : exn + option ref) (s' : state)
         (junk : list DataFrame) (cs : list fn),
    read_by_type pd_read_csv file_extension s = (res, s')
    /\ content (file s') = content (file s)
    /\ db s' = db s
    /\ heap s' = heap s ++ junk
    /\ calls s' = calls s ++ cs
    /\ Forall parse_fn cs
    /\ match parse pd_read_csv file_extension (content (file s)) with
       | Some (inr d) => exists data, res = inr (Some data)
                                      /\ nth_error (heap s') data = Some d
       | Some (inl e) => res = inl e
       | None => res = inr None /\ cs = []
       end.
Proof.
  intros Hpos. unfold read_by_type, parse.
  destruct (String.eqb file_extension "csv").
  - run_ops. rewrite read_csv_run.
    cbv [remaining]. cbn [file heap db calls]. rewrite Hpos. cbn [skipn].
    destruct (pd_read_csv (content (file s)) ","%char) as [[e|d] used];
      cbn [fst snd].
    + eexists _, _, [], [Fn_read_csv]. repeat split; cbn.
      * now rewrite app_nil_r.
      * constructor; [now left | constructor].
    + eexists _, _, [d], [Fn_read_csv]. repeat split; cbn.
      * constructor; [now left | constructor].
      * exists (List.length (heap s)). split; [reflexivity|].
        apply nth_error_last.
  - destruct (String.eqb file_extension "txt").
    + run_ops.
      destruct (read_txt_file_run default_delimiters
                  {| file := file s; heap := heap s; db := db s;
                     calls := calls s ++ [Fn_read_txt_file] |})
        as (res & s' & junk & k & Hrun & Hc & Hdb & Hheap & Hcalls & Hres).
      cbn [file heap db calls] in *. rewrite Hrun.
      unfold parse_txt. change [tab; ","%char; " "%char] with default_delimiters.
      destruct (parse_candidates pd_read_csv (content (file s))
                  default_delimiters) as [e|d].
      * subst res. eexists _, s', junk, (Fn_read_txt_file :: repeat Fn_read_csv k).
        repeat split; try assumption.
        -- rewrite Hcalls, <- app_assoc. reflexivity.
        -- constructor; [now right | apply parse_fn_repeat].
      * destruct Hres as (data & -> & Hd).
        eexists _, s', junk, (Fn_read_txt_file :: repeat Fn_read_csv k).
        repeat split; try assumption.
        -- rewrite Hcalls, <- app_assoc. reflexivity.
        -- constructor; [now right | apply parse_fn_repeat].
        -- exists data. split; [reflexivity | assumption].
    + exists (inr None), s, [], []. cbn. rewrite !app_nil_r.
      repeat split. constructor.
Qed.

(** The run of [process_files] once the extension check has passed, against
    the parser and the verdicts of the specification. *)
Lemma process_files_matching (file_type filename : string) (s : state) :
  str_lower (actual_extension os_path filename) = file_type ->
  let input := content (file s) in
  let v1 := validate_file_name os_path filename in
  let v2 := size_verdict (List.length input) in
  let out := process_files os_path str_lower pd_read_csv file_type filename s in
  let s' := snd out in
  exists (junk : list DataFrame) (cs : list fn),
    content (file s') = input
    /\ heap s' = heap s ++ junk
    /\ Forall parse_fn cs
    /\ match parse pd_read_csv file_type input with
       | Some (inr d) =>
           let results := [v1; v2; headers_verdict d; null_verdict d;
                           empty_rows_verdict d] in
           fst out = (if existsb failed results
                      then FileRejected (filter failed results)
                      else FileAccepted results)
           /\ db s' = db s
                      ++ [row filename "File Name" v1;
                          row filename "File Size" v2;
                          row filename "Headers" (headers_verdict d);
                          row filename "Null Values" (null_verdict d);
                          row filename "Empty Rows" (empty_rows_verdict d)]
                      ++ (if existsb failed results then []
                          else map (row filename "Validation") results)
           /\ calls s' = calls s
                         ++ [Fn_validate_file_name; Fn_validate_file_size]
                         ++ cs
                         ++ [Fn_validate_headers; Fn_check_null_values;
                             Fn_check_empty_rows]
       | Some (inl e) =>
           fst out = handlers e
           /\ db s' = db s ++ [row filename "File Name" v1;
                              row filename "File Size" v2]
           /\ calls s' = calls s
                         ++ [Fn_validate_file_name; Fn_validate_file_size]
                         ++ cs
       | None =>
           fst out = CaughtException (UnboundLocalError "data")
           /\ db s' = db s ++ [row filename "File Name" v1;
                              row filename "File Size" v2]
           /\ calls s' = calls s
                         ++ [Fn_validate_file_name; Fn_validate_file_size]
       end.
Proof.
  intros Hext input v1 v2 out s'. subst out s'.
  unfold process_files, process_files_body.
  unfold actual_extension in Hext. rewrite Hext, String.eqb_refl.
  cbn [negb app]. run_ops. rewrite validate_file_size_run. run_ops.
  fold v1. fold input. fold v2.
  set (s2 := {| file := {| content := input; position := 0 |};
                heap := heap s;
                db := (db s ++ [row filename "File Name" v1])
                        ++ [row filename "File Size" v2];
                calls := (calls s ++ [Fn_validate_file_name])
                           ++ [Fn_validate_file_size] |}).
  destruct (read_by_type_run file_type s2 eq_refl)
    as (res & s3 & junk & cs & Hrun & Hc & Hdb & Hheap & Hcalls & Hcs & Hres).
  subst s2. cbv [row] in *. cbn [file heap db calls content] in *.
  rewrite Hrun. clear Hrun.
  destruct (parse pd_read_csv file_type input) as [[e|d]|].
  - subst res. exists junk, cs. cbn [fst snd].
    rewrite Hc, Hheap, Hdb, Hcalls, <- !app_assoc. repeat split; assumption.
  - destruct Hres as (data & -> & Hd).
    rewrite (validate_headers_run data d) by (cbn [heap]; assumption).
    cbn [file heap db calls].
    rewrite (check_null_values_run data d) by (cbn [heap]; assumption).
    cbn [file heap db calls].
    rewrite (check_empty_rows_run data d)
      by (cbn [heap]; now apply nth_error_keep).
    cbn [file heap db calls].
    set (results := [v1; v2; headers_verdict d; null_verdict d;
                     empty_rows_verdict d]).
    exists (junk ++ [isnull d; replace_blank d; dropna_all (replace_blank d)]), cs.
    destruct (existsb failed results) eqn:Hany; subst results;
      cbn [for_each map]; run_ops;
      rewrite Hc, Hheap, Hdb, Hcalls, <- !app_assoc; cbn [app];
      repeat split; assumption.
  - destruct Hres as [-> ->]. exists junk, []. cbn [fst snd].
    rewrite Hc, Hheap, Hdb, Hcalls, <- !app_assoc, ?app_nil_r.
    repeat split. constructor.
Qed.

End WithHost.

End Steps.

(** ** The file name pattern *)

Module NameFacts.

Import FileValidation.

Lemma after_run_app (p : ascii -> bool) (w t : string) :
  Str.forallb p w = true -> after_run p (w ++ t) = after_run p t.
Proof.
  induction w as [|c w IH]; cbn; [reflexivity|].
  intros H. apply andb_prop in H as [Hc Hw]. rewrite Hc. now apply IH.
Qed.

Lemma after_run_split (p : ascii -> bool) (s : string) :
  exists w, Str.forallb p w = true /\ s = (w ++ after_run p s)%string.
Proof.
  induction s as [|c s (w & Hw & Hs)]; cbn.
  - now exists EmptyString.
  - destruct (p c) eqn:Hc.
    + exists (String c w). cbn. rewrite Hc, Hw. split; [reflexivity|].
      now rewrite <- Hs.
    + now exists EmptyString.
Qed.

Lemma append_empty_r (s : string) : (s ++ "")%string = s.
Proof.
  induction s as [|c s IH]; cbn; [reflexivity | now rewrite IH].
Qed.

(** What [re.match(r"^[a-zA-Z0-9 ]+$", s)] accepts: a non-empty run of
    characters of the class, alone or followed by one final newline. *)
Lemma re_match_name_spec (s : string) :
  re_match_name s = true <->
  exists w, w <> EmptyString /\ Str.forallb name_char w = true
            /\ (s = w \/ s = (w ++ nl)%string).
Proof.
  split.
  - destruct s as [|c s]; cbn; [discriminate|].
    intros H. apply andb_prop in H as [Hc H].
    destruct (after_run_split name_char s) as (w & Hw & Hs).
    exists (String c w). split; [discriminate|]. cbn. rewrite Hc, Hw.
    split; [reflexivity|].
    apply orb_prop in H as [H|H]; apply String.eqb_eq in H; rewrite H in Hs.
    + left. rewrite append_empty_r in Hs. now subst.
    + right. now subst.
  - intros (w & Hne & Hw & [->| ->]); destruct w as [|c w]; try contradiction;
      cbn in Hw |- *; apply andb_prop in Hw as [Hc Hw]; rewrite Hc; cbn.
    + rewrite <- (append_empty_r w), after_run_app by assumption.
      reflexivity.
    + rewrite after_run_app by assumption. reflexivity.
Qed.

End NameFacts.

(** ** The claims of the specification *)

Import Stream Pandas Run FileValidation Spec.

Lemma failed_mismatch_message (file_type : string) :
  failed (mismatch_message file_type) = true.
Proof.
  unfold failed, mismatch_message.
  apply StrFacts.contains_append, StrFacts.contains_append.
  reflexivity.
Qed.

Lemma passed_name (os_path : OsPath.flavour) (filename : string) :
  failed (validate_file_name os_path filename) = false ->
  validate_file_name os_path filename = "File name is valid. ✅".
Proof.
  unfold validate_file_name. now destruct (re_match_name _).
Qed.

Lemma passed_size (n : nat) :
  failed (size_verdict n) = false <-> (Z.of_nat n <= 10240)%Z.
Proof.
  unfold size_verdict.
  destruct (Nat.leb_spec n (10 * 1024)) as [H|H]; split; intros H';
    try reflexivity; try discriminate; lia.
Qed.

Lemma passed_headers (d : DataFrame) :
  failed (headers_verdict d) = false ->
  headers_verdict d = "Headers matched. ✅".
Proof.
  unfold headers_verdict. now destruct (Str.list_eqb _ _).
Qed.

Lemma passed_null (d : DataFrame) :
  failed (null_verdict d) = false ->
  null_verdict d = "Uploaded file does not contain null values. ✅".
Proof.
  unfold null_verdict. now destruct (existsb _ _).
Qed.

Lemma passed_empty_rows (d : DataFrame) :
  failed (empty_rows_verdict d) = false ->
  empty_rows_verdict d = "Uploaded file does not contain empty rows. ✅".
Proof.
  unfold empty_rows_verdict. now destruct (existsb _ _).
Qed.

Section Pipeline.

Variable os_path : OsPath.flavour.
Variable str_lower : string -> string.
Variable pd_read_csv : list byte -> ascii -> (exn + DataFrame) * nat.

(** C1. When the actual extension of the file and the declared type differ
    up to case (their images under [str.lower] differ), [process_files]
    returns the rejection of the type check with its one verdict, a failing
    one; that verdict is the only row added to the table; no rule function
    and no reader is entered, and the stream and the frames are left as they
    were.  The one fact about [str.lower] that is used is that lowering a
    lowered text changes nothing. *)
Theorem extension_mismatch_is_terminal
    (file_type filename : string) (s : state) :
  (forall t, str_lower (str_lower t) = str_lower t) ->
  str_lower (actual_extension os_path filename) <> str_lower file_type ->
  let out := process_files os_path str_lower pd_read_csv file_type filename s in
  let verdict := mismatch_message file_type in
  fst out = TypeMismatch verdict
  /\ content_of (fst out)
     = ("error",
        ("File type mismatch. Expected " ++ file_type ++ " file. ❌")%string)
  /\ failed verdict = true
  /\ db (snd out) = db s ++ [row filename "File Type" verdict]
  /\ calls (snd out) = calls s
  /\ file (snd out) = file s
  /\ heap (snd out) = heap s.
Proof.
  intros Hidem Hdiff out verdict. subst out.
  unfold process_files, process_files_body.
  assert (Hne : String.eqb (str_lower (actual_extension os_path filename))
                           file_type = false).
  { apply String.eqb_neq. intros E. apply Hdiff.
    rewrite <- E. now rewrite Hidem. }
  unfold actual_extension in Hne. rewrite Hne. cbn [negb].
  Steps.run_ops. fold (mismatch_message file_type). fold verdict.
  repeat split. apply failed_mismatch_message.
Qed.

(** C2. A fully valid upload (the lowered extension is the declared type,
    the parse gives a table, and the five verdicts pass) is accepted with the
    five passing verdicts, listed in the text under the key [message], and
    exactly ten rows are added to the table: the
    five verdicts under File Name, File Size, Headers, Null Values and Empty
    Rows, then the same five under Validation. *)
Theorem valid_upload_adds_ten_rows
    (file_type filename : string) (s : state) (d : DataFrame) :
  str_lower (actual_extension os_path filename) = file_type ->
  parse pd_read_csv file_type (content (file s)) = Some (inr d) ->
  failed (validate_file_name os_path filename) = false ->
  failed (size_verdict (List.length (content (file s)))) = false ->
  failed (headers_verdict d) = false ->
  failed (null_verdict d) = false ->
  failed (empty_rows_verdict d) = false ->
  let out := process_files os_path str_lower pd_read_csv file_type filename s in
  let results :=
    ["File name is valid. ✅"; "File size is valid. ✅"; "Headers matched. ✅";
     "Uploaded file does not contain null values. ✅";
     "Uploaded file does not contain empty rows. ✅"] in
  fst out = FileAccepted results
  /\ content_of (fst out)
     = ("message",
        (nl ++ "        <h3 style=" ++ dquote ++ "color: #4CAF50;" ++ dquote
            ++ ">File Validation Results:</h3>" ++ nl
            ++ "        <ul>" ++ nl
            ++ "            "
            ++ Str.join (map (fun result => "<li>" ++ result ++ "</li>")
                             results)
            ++ nl
            ++ "        </ul>" ++ nl
            ++ "        ")%string)
  /\ db (snd out)
     = db s
       ++ map (fun p => row filename (fst p) (snd p))
            (combine ["File Name"; "File Size"; "Headers"; "Null Values";
                      "Empty Rows"] results)
       ++ map (row filename "Validation") results
  /\ List.length (db (snd out)) = (List.length (db s) + 10)%nat.
Proof.
  intros Hext Hparse H1 H2 H3 H4 H5 out results.
  destruct (Steps.process_files_matching os_path str_lower pd_read_csv
              file_type filename s Hext)
    as (junk & cs & _ & _ & _ & Hcase).
  rewrite Hparse in Hcase. cbv zeta in Hcase.
  apply passed_name in H1. apply passed_headers in H3.
  apply passed_null in H4. apply passed_empty_rows in H5.
  assert (H2' : size_verdict (List.length (content (file s)))
                = "File size is valid. ✅").
  { unfold size_verdict in *. now destruct (_ <=? _)%nat. }
  rewrite H1, H2', H3, H4, H5 in Hcase.
  change (existsb failed _) with false in Hcase.
  destruct Hcase as (Hres & Hdb & _).
  subst out. split; [exact Hres|].
  split; [rewrite Hres; reflexivity|]. split; [exact Hdb|].
  rewrite Hdb, !length_app. cbn. lia.
Qed.

(** C3. [read_txt_file] tries tab, comma and space, in that order, each on
    the whole content whatever the position of the stream was; it returns
    the table of the first candidate whose column names are the required
    schema, so a candidate that matches wins over every later one, and
    without such a candidate it raises the ValueError that names the three
    delimiters. *)
Theorem read_txt_file_first_match (s : state) :
  let input := content (file s) in
  let out := read_txt_file pd_read_csv default_delimiters s in
  default_delimiters = [tab; ","%char; " "%char]
  /\ content (file (snd out)) = input
  /\ match first_matching pd_read_csv input [tab; ","%char; " "%char] with
     | Some delimiter =>
         exists data d,
           fst out = inr data
           /\ nth_error (heap (snd out)) data = Some d
           /\ fst (pd_read_csv input delimiter) = inr d
           /\ columns d = ALLOWED_HEADERS
     | None =>
         fst out = inl (ValueError
           "Failed to parse the .txt file with common delimiters (tab, comma, space).")
     end
  /\ (schema_matches (fst (pd_read_csv input tab)) = true ->
      first_matching pd_read_csv input [tab; ","%char; " "%char] = Some tab).
Proof.
  intros input out.
  destruct (Steps.read_txt_file_run pd_read_csv default_delimiters s)
    as (res & s' & junk & k & Hrun & Hc & _ & _ & _ & Hres).
  subst out. rewrite Hrun. cbn [fst snd].
  split; [reflexivity|]. split; [exact Hc|]. split.
  - unfold parse_candidates in Hres. fold input in Hres.
    change default_delimiters with [tab; ","%char; " "%char] in Hres.
    destruct (first_matching pd_read_csv input [tab; ","%char; " "%char])
      as [delimiter|] eqn:Hfind; [|exact Hres].
    apply find_some in Hfind as [_ Hm].
    destruct (fst (pd_read_csv input delimiter)) as [e|d]; [discriminate|].
    destruct Hres as (data & -> & Hd). exists data, d.
    repeat split; try assumption. now apply StrFacts.list_eqb_eq.
  - intros Hm. unfold first_matching. cbn [find]. now rewrite Hm.
Qed.

(** C4. When the lowered extension is the declared type and the parse gives
    a table, the three table rules are entered in the order Headers, Null
    Values, Empty Rows after the two file rules and the readers, their three
    verdicts are recorded after those of File Name and File Size whatever
    any of the five verdicts is, and when a verdict fails the response is
    the rejection whose text lists, one list item each and in the order of
    the rules, exactly the failing verdicts. *)
Theorem table_rules_all_run
    (file_type filename : string) (s : state) (d : DataFrame) :
  str_lower (actual_extension os_path filename) = file_type ->
  parse pd_read_csv file_type (content (file s)) = Some (inr d) ->
  let out := process_files os_path str_lower pd_read_csv file_type filename s in
  let v1 := validate_file_name os_path filename in
  let v2 := size_verdict (List.length (content (file s))) in
  let results := [v1; v2; headers_verdict d; null_verdict d;
                  empty_rows_verdict d] in
  let recorded := [row filename "File Name" v1;
                   row filename "File Size" v2;
                   row filename "Headers" (headers_verdict d);
                   row filename "Null Values" (null_verdict d);
                   row filename "Empty Rows" (empty_rows_verdict d)] in
  (exists cs,
      Forall parse_fn cs
      /\ calls (snd out)
         = calls s ++ [Fn_validate_file_name; Fn_validate_file_size] ++ cs
             ++ [Fn_validate_headers; Fn_check_null_values;
                 Fn_check_empty_rows])
  /\ (exists more, db (snd out) = db s ++ recorded ++ more)
  /\ (existsb failed results = true ->
      fst out = FileRejected (filter failed results)
      /\ content_of (fst out)
         = ("error",
            (nl ++ "            <h3 style=" ++ dquote ++ "color: red;"
                ++ dquote ++ ">File Rejected:</h3>" ++ nl
                ++ "            <ul>" ++ nl
                ++ "                "
                ++ Str.join
                     (map (fun result => "<li>" ++ result ++ "</li>")
                          (filter failed results))
                ++ nl
                ++ "            </ul>" ++ nl
                ++ "            ")%string)
      /\ db (snd out) = db s ++ recorded
      /\ forall m, In m (filter failed results)
                   <-> In m results /\ failed m = true).
Proof.
  intros Hext Hparse out v1 v2 results recorded.
  destruct (Steps.process_files_matching os_path str_lower pd_read_csv
              file_type filename s Hext)
    as (junk & cs & _ & _ & Hcs & Hcase).
  rewrite Hparse in Hcase. cbv zeta in Hcase.
  fold v1 v2 in Hcase. fold results in Hcase. fold recorded in Hcase.
  fold out in Hcase. destruct Hcase as (Hres & Hdb & Hcalls).
  split; [exists cs; now split|]. split; [eexists; exact Hdb|].
  intros Hany. rewrite Hany in Hres, Hdb. rewrite app_nil_r in Hdb.
  split; [exact Hres|]. split; [rewrite Hres; reflexivity|].
  split; [exact Hdb|].
  intros m. apply filter_In.
Qed.

(** C5 (what the code does). A declared type other than csv and txt that is
    the lowered extension of the file passes the extension check; File Name
    and File Size are recorded, no reader is entered, the local [data] is
    never bound, and the run ends in the handler of unexpected exceptions,
    not in the rejection of the type check. *)
Theorem unsupported_type_is_unexpected_error
    (file_type filename : string) (s : state) :
  str_lower (actual_extension os_path filename) = file_type ->
  file_type <> "csv" -> file_type <> "txt" ->
  let out := process_files os_path str_lower pd_read_csv file_type filename s in
  fst out = CaughtException (UnboundLocalError "data")
  /\ fst out <> TypeMismatch (mismatch_message file_type)
  /\ content_of (fst out)
     = ("error",
        "An unexpected error occurred: cannot access local variable 'data' where it is not associated with a value ❌")
  /\ db (snd out)
     = db s ++ [row filename "File Name" (validate_file_name os_path filename);
                row filename "File Size"
                  (size_verdict (List.length (content (file s))))]
  /\ calls (snd out)
     = calls s ++ [Fn_validate_file_name; Fn_validate_file_size].
Proof.
  intros Hext Hcsv Htxt out.
  destruct (Steps.process_files_matching os_path str_lower pd_read_csv
              file_type filename s Hext)
    as (junk & cs & _ & _ & _ & Hcase).
  unfold parse in Hcase.
  apply String.eqb_neq in Hcsv, Htxt. rewrite Hcsv, Htxt in Hcase.
  fold out in Hcase. destruct Hcase as (Hres & Hdb & Hcalls).
  rewrite Hres. repeat split; try assumption. discriminate.
Qed.

(** C6. A txt upload for which no candidate delimiter gives the required
    schema ends in the handler of ValueError: the response is the error with
    the text of the parse failure, whose content is neither that of a
    rejection nor that of the type check; the rows added are those of File
    Name and File Size alone, and after the two file rules only readers are
    entered, no table rule. *)
Theorem txt_parse_failure_is_error (filename : string) (s : state) :
  str_lower (actual_extension os_path filename) = "txt" ->
  first_matching pd_read_csv (content (file s)) [tab; ","%char; " "%char]
    = None ->
  let out := process_files os_path str_lower pd_read_csv "txt" filename s in
  fst out = CaughtValueError parse_failure
  /\ content_of (fst out)
     = ("error",
        "Failed to parse the .txt file with common delimiters (tab, comma, space). ❌")
  /\ (forall failing, content_of (fst out) <> content_of (FileRejected failing))
  /\ (forall file_type,
        content_of (fst out)
        <> content_of (TypeMismatch (mismatch_message file_type)))
  /\ db (snd out)
     = db s ++ [row filename "File Name" (validate_file_name os_path filename);
                row filename "File Size"
                  (size_verdict (List.length (content (file s))))]
  /\ exists cs,
       calls (snd out)
       = calls s ++ [Fn_validate_file_name; Fn_validate_file_size] ++ cs
       /\ Forall (fun f => parse_fn f /\ ~ table_fn f) cs.
Proof.
  intros Hext Hnone out.
  destruct (Steps.process_files_matching os_path str_lower pd_read_csv
              "txt" filename s Hext)
    as (junk & cs & _ & _ & Hcs & Hcase).
  unfold parse, parse_txt, parse_candidates in Hcase. cbn [String.eqb] in Hcase.
  change (String.eqb "txt" "csv") with false in Hcase.
  change (String.eqb "txt" "txt") with true in Hcase.
  cbv iota in Hcase. rewrite Hnone in Hcase.
  fold out in Hcase. destruct Hcase as (Hres & Hdb & Hcalls).
  rewrite Hres. cbn [handlers content_of].
  split; [reflexivity|]. split; [reflexivity|].
  split; [intros failing; discriminate|].
  split; [intros file_type; discriminate|].
  split; [exact Hdb|].
  exists cs. split; [exact Hcalls|].
  eapply Forall_impl; [|exact Hcs].
  intros f Hf. split; [exact Hf|].
  intros Ht. destruct Hf as [-> | ->];
    destruct Ht as [Ht|[Ht|Ht]]; discriminate.
Qed.

(** C7. The File Size verdict passes exactly when the byte length of the
    file is at most 10240: a file of 10240 bytes passes and a file of 10241
    bytes fails. *)
Theorem file_size_limit_inclusive (s : state) :
  let n := List.length (content (file s)) in
  fst (validate_file_size s) = inr (size_verdict n)
  /\ (failed (size_verdict n) = false <-> (Z.of_nat n <= 10240)%Z)
  /\ (size_verdict n = "File size is valid. ✅" <-> (Z.of_nat n <= 10240)%Z)
  /\ (size_verdict n = "File size must be under 10 KB. ❌"
      <-> (10240 < Z.of_nat n)%Z)
  /\ failed (size_verdict (10 * 1024)) = false
  /\ failed (size_verdict (10 * 1024 + 1)) = true.
Proof.
  intros n. rewrite Steps.validate_file_size_run. cbn [fst].
  split; [reflexivity|]. split; [apply passed_size|].
  unfold size_verdict.
  destruct (Nat.leb_spec n (10 * 1024)) as [H|H].
  - repeat split; try reflexivity; try discriminate; try lia.
  - repeat split; try reflexivity; try discriminate; try lia.
Qed.

(** C8 (what the code does). The name made of Report1, a newline and .csv
    has the base name Report1 followed by a newline, which is not made of
    letters, digits and spaces only; yet [validate_file_name] returns the
    passing verdict for it, under either flavour of [os.path]. *)
Theorem newline_base_name_passes :
  let filename := ("Report1" ++ nl ++ ".csv")%string in
  let base := ("Report1" ++ nl)%string in
  base_name OsPath.posixpath filename = base
  /\ base_name OsPath.ntpath filename = base
  /\ Str.forallb name_char base = false
  /\ validate_file_name OsPath.posixpath filename = "File name is valid. ✅"
  /\ validate_file_name OsPath.ntpath filename = "File name is valid. ✅"
  /\ failed (validate_file_name OsPath.ntpath filename) = false.
Proof.
  repeat split; vm_compute; reflexivity.
Qed.

(** C9. [validate_file_size] leaves the bytes of the stream as they were and
    its position at 0, and changes nothing else, so a reader that follows it
    is given the whole content. *)
Theorem validate_file_size_rewinds (s : state) (delimiter : ascii) :
  let s' := snd (validate_file_size s) in
  content (file s') = content (file s)
  /\ position (file s') = 0%nat
  /\ heap s' = heap s /\ db s' = db s /\ calls s' = calls s
  /\ remaining (file s') = content (file s)
  /\ fst (read_csv pd_read_csv delimiter s')
     = match fst (pd_read_csv (content (file s)) delimiter) with
       | inl e => inl e
       | inr _ => inr (List.length (heap s))
       end.
Proof.
  intros s'. subst s'. rewrite Steps.validate_file_size_run. cbn [snd].
  cbn [file heap db calls content position]. repeat split.
  rewrite Steps.read_csv_run. cbv [remaining].
  cbn [file heap db calls content position skipn].
  destruct (fst (pd_read_csv (content (file s)) delimiter)); reflexivity.
Qed.

(** C10. Running the table rules on a frame, any of them, in any order and
    any number of times, leaves that frame and every other frame of the
    store as they were and changes neither the stream nor the table of
    results; each run of a rule returns the verdict that the rule has for
    that frame; [check_empty_rows] works on two fresh frames, the copy with
    the blank cells made missing and the copy without the empty rows. *)
Theorem table_rules_leave_table_unchanged
    (rules : list table_rule) (data : ref) (d : DataFrame) (s : state) :
  nth_error (heap s) data = Some d ->
  let out := run_rules rules data s in
  fst out = inr (map (fun rule => verdict_of rule d) rules)
  /\ nth_error (heap (snd out)) data = Some d
  /\ (forall r x, nth_error (heap s) r = Some x ->
                  nth_error (heap (snd out)) r = Some x)
  /\ file (snd out) = file s
  /\ db (snd out) = db s
  /\ heap (snd (check_empty_rows data s))
     = heap s ++ [replace_blank d; dropna_all (replace_blank d)].
Proof.
  intros Hd out. subst out.
  assert (Hlast : heap (snd (check_empty_rows data s))
                  = heap s ++ [replace_blank d; dropna_all (replace_blank d)]).
  { rewrite (Steps.check_empty_rows_run data d s Hd). cbn [snd heap].
    now rewrite <- app_assoc. }
  cut (fst (run_rules rules data s)
         = inr (map (fun rule => verdict_of rule d) rules)
       /\ (forall r x, nth_error (heap s) r = Some x ->
             nth_error (heap (snd (run_rules rules data s))) r = Some x)
       /\ file (snd (run_rules rules data s)) = file s
       /\ db (snd (run_rules rules data s)) = db s).
  { intros (H1 & H2 & H3 & H4). repeat split; auto. }
  clear Hlast. revert s Hd.
  induction rules as [|rule rules IH]; intros s Hd.
  - cbn. repeat split; auto.
  - cbn [run_rules map].
    assert (Hstep : exists s1,
               run_rule rule data s = (inr (verdict_of rule d), s1)
               /\ (exists fresh, heap s1 = heap s ++ fresh)
               /\ file s1 = file s /\ db s1 = db s).
    { destruct rule; cbn [run_rule verdict_of].
      - rewrite (Steps.validate_headers_run data d s Hd).
        exists s. repeat split. exists []. now rewrite app_nil_r.
      - rewrite (Steps.check_null_values_run data d s Hd).
        eexists. split; [reflexivity|]. cbn. repeat split. now eexists.
      - rewrite (Steps.check_empty_rows_run data d s Hd).
        eexists. split; [reflexivity|]. cbn. repeat split.
        rewrite <- app_assoc. now eexists. }
    destruct Hstep as (s1 & Hrun & (fresh & Hheap) & Hfile & Hdb).
    assert (Hd1 : nth_error (heap s1) data = Some d)
      by (rewrite Hheap; now apply Steps.nth_error_keep).
    destruct (IH s1 Hd1) as (H1 & H2 & H3 & H4).
    unfold bind. rewrite Hrun.
    destruct (run_rules rules data s1) as [[e|vs] s2]; cbn [fst snd] in *;
      [discriminate|].
    injection H1 as ->. cbn [ret fst snd]. repeat split.
    + intros r x Hx. apply H2. rewrite Hheap. now apply Steps.nth_error_keep.
    + congruence.
    + congruence.
Qed.

End Pipeline.

(** ** The claims on concrete uploads *)

(** Scenario D: a file named Report1.txt declared as csv. *)
Lemma extension_mismatch_is_terminal_witness :
  Str.lower (actual_extension OsPath.ntpath "Report1.txt") <> Str.lower "csv"
  /\ process_files OsPath.ntpath Str.lower Demo.read_csv "csv" "Report1.txt"
       (Demo.upload Demo.report1)
     = (TypeMismatch "File type mismatch. Expected csv file. ❌",
        {| file := file (Demo.upload Demo.report1);
           heap := [];
           db := [row "Report1.txt" "File Type"
                    "File type mismatch. Expected csv file. ❌"];
           calls := [] |}).
Proof.
  assert (H : Str.lower (actual_extension OsPath.ntpath "Report1.txt")
              <> Str.lower "csv") by (vm_compute; discriminate).
  split; [exact H|].
  pose proof (extension_mismatch_is_terminal OsPath.ntpath Str.lower
                Demo.read_csv "csv" "Report1.txt" (Demo.upload Demo.report1)
                StrFacts.lower_idem H) as T.
  cbv zeta in T. destruct T as (T1 & _ & _ & T4 & T5 & T6 & T7).
  destruct (process_files _ _ _ _ _) as [r s']. cbn [fst snd] in *.
  destruct s' as [f h b c]. cbn [file heap db calls] in *.
  subst. reflexivity.
Defined.

(** Scenario A: Report1.csv declared as csv, with the required header, no
    blank and no empty row. *)
Lemma valid_upload_adds_ten_rows_witness :
  List.length
    (db (snd (process_files OsPath.ntpath Str.lower Demo.read_csv "csv" "Report1.csv"
                (Demo.upload Demo.report1)))) = 10%nat
  /\ exists results,
       fst (process_files OsPath.ntpath Str.lower Demo.read_csv "csv" "Report1.csv"
              (Demo.upload Demo.report1)) = FileAccepted results
       /\ List.length results = 5%nat.
Proof.
  pose proof (valid_upload_adds_ten_rows OsPath.ntpath Str.lower Demo.read_csv
                "csv" "Report1.csv" (Demo.upload Demo.report1)
                Demo.report1_frame
                eq_refl eq_refl eq_refl eq_refl eq_refl eq_refl eq_refl) as T.
  cbv zeta in T. destruct T as (T1 & _ & _ & T3).
  split; [exact T3|]. eexists. split; [exact T1 | reflexivity].
Defined.

(** Scenario B: bad@name.csv declared as csv, otherwise valid. *)
Lemma table_rules_all_run_witness :
  fst (process_files OsPath.ntpath Str.lower Demo.read_csv "csv" "bad@name.csv"
         (Demo.upload Demo.report1))
  = FileRejected ["File name is invalid. ❌"]
  /\ map validation_rule
       (db (snd (process_files OsPath.ntpath Str.lower Demo.read_csv "csv"
                   "bad@name.csv" (Demo.upload Demo.report1))))
     = ["File Name"; "File Size"; "Headers"; "Null Values"; "Empty Rows"].
Proof.
  pose proof (table_rules_all_run OsPath.ntpath Str.lower Demo.read_csv
                "csv" "bad@name.csv" (Demo.upload Demo.report1)
                Demo.report1_frame eq_refl eq_refl) as T.
  cbv zeta in T. destruct T as (_ & _ & T3).
  destruct (T3 eq_refl) as (R1 & _ & R2 & _).
  split; [exact R1|]. rewrite R2. reflexivity.
Defined.

(** A file named data.xlsx declared as xlsx. *)
Lemma unsupported_type_is_unexpected_error_witness :
  fst (process_files OsPath.ntpath Str.lower Demo.read_csv "xlsx" "data.xlsx"
         (Demo.upload Demo.report1))
  = CaughtException (UnboundLocalError "data")
  /\ map validation_rule
       (db (snd (process_files OsPath.ntpath Str.lower Demo.read_csv "xlsx" "data.xlsx"
                   (Demo.upload Demo.report1))))
     = ["File Name"; "File Size"].
Proof.
  assert (Hcsv : "xlsx" <> "csv") by discriminate.
  assert (Htxt : "xlsx" <> "txt") by discriminate.
  pose proof (unsupported_type_is_unexpected_error OsPath.ntpath Str.lower Demo.read_csv
                "xlsx" "data.xlsx" (Demo.upload Demo.report1)
                eq_refl Hcsv Htxt) as T.
  cbv zeta in T. destruct T as (T1 & _ & _ & T4 & _).
  split; [exact T1|]. rewrite T4. reflexivity.
Defined.

(** A txt file whose fields are separated by semicolons. *)
Lemma txt_parse_failure_is_error_witness :
  process_files OsPath.ntpath Str.lower Demo.read_csv "txt" "notes.txt"
    (Demo.upload Demo.semicolons)
  = (CaughtValueError parse_failure,
     snd (process_files OsPath.ntpath Str.lower Demo.read_csv "txt" "notes.txt"
            (Demo.upload Demo.semicolons)))
  /\ map validation_rule
       (db (snd (process_files OsPath.ntpath Str.lower Demo.read_csv "txt" "notes.txt"
                   (Demo.upload Demo.semicolons))))
     = ["File Name"; "File Size"].
Proof.
  pose proof (txt_parse_failure_is_error OsPath.ntpath Str.lower Demo.read_csv
                "notes.txt" (Demo.upload Demo.semicolons)
                eq_refl eq_refl) as T.
  cbv zeta in T. destruct T as (T1 & _ & _ & _ & T5 & _).
  split.
  - rewrite <- T1. now destruct (process_files _ _ _ _ _).
  - rewrite T5. reflexivity.
Defined.

(** The three rules, one of them twice, on the second frame of a store. *)
Lemma table_rules_leave_table_unchanged_witness :
  fst (run_rules [EmptyRows; Headers; NullValues; EmptyRows] 1%nat
         Demo.loaded)
  = inr ["Uploaded file contains empty rows. ❌"; "Headers matched. ✅";
         "Uploaded file contains null values. ❌";
         "Uploaded file contains empty rows. ❌"]
  /\ nth_error
       (heap (snd (run_rules [EmptyRows; Headers; NullValues; EmptyRows]
                     1%nat Demo.loaded))) 1%nat
     = Some Demo.gappy_frame.
Proof.
  pose proof (table_rules_leave_table_unchanged
                [EmptyRows; Headers; NullValues; EmptyRows] 1%nat
                Demo.gappy_frame Demo.loaded eq_refl) as T.
  cbv zeta in T. destruct T as (T1 & T2 & _).
  split; [exact T1 | exact T2].
Defined.

(** The two sides of the size limit, on streams of 10240 and 10241 bytes. *)
Example size_at_limit :
  fst (validate_file_size (Demo.blob (10 * 1024)))
  = inr "File size is valid. ✅".
Proof. vm_compute. reflexivity. Qed.

Example size_over_limit :
  fst (validate_file_size (Demo.blob (10 * 1024 + 1)))
  = inr "File size must be under 10 KB. ❌".
Proof. vm_compute. reflexivity. Qed.

(** A name with a trailing newline in its base name goes through the whole
    pipeline as a valid upload. *)
Example newline_name_accepted :
  exists results,
    fst (process_files OsPath.ntpath Str.lower Demo.read_csv "csv"
           ("Report1" ++ nl ++ ".csv")%string (Demo.upload Demo.report1))
    = FileAccepted ("File name is valid. ✅" :: results).
Proof. eexists. vm_compute. reflexivity. Qed.

(** Scenario C: a txt file that has the required header under the space
    only is read through the third candidate and accepted. *)
Example space_delimited_txt_accepted :
  first_matching Demo.read_csv (list_byte_of_string Demo.spaced)
    [tab; ","%char; " "%char] = Some " "%char
  /\ exists results,
       fst (process_files OsPath.posixpath Str.lower Demo.read_csv "txt" "stock.TXT"
              (Demo.upload Demo.spaced)) = FileAccepted results.
Proof.
  split; [reflexivity|]. eexists. vm_compute. reflexivity.
Qed.

(** ** Further properties of the rules *)

Import Outcome.

Lemma failed_headers_iff (d : DataFrame) :
  failed (headers_verdict d) = false <-> columns d = ALLOWED_HEADERS.
Proof.
  unfold headers_verdict.
  destruct (Str.list_eqb (columns d) ALLOWED_HEADERS) eqn:E.
  - split; [intros _; now apply StrFacts.list_eqb_eq | reflexivity].
  - split; [discriminate|]. intros H. apply StrFacts.list_eqb_eq in H.
    congruence.
Qed.

Lemma failed_null_iff (d : DataFrame) :
  failed (null_verdict d) = true
  <-> exists r, In r (rows d) /\ In NA r.
Proof.
  unfold null_verdict.
  destruct (existsb (existsb is_na) (rows d)) eqn:E.
  - split; [intros _ | reflexivity].
    apply existsb_exists in E as (r & Hr & Hc).
    apply existsb_exists in Hc as (c & Hc & Hna).
    exists r. split; [assumption|]. destruct c; try discriminate. assumption.
  - split; [discriminate|]. intros (r & Hr & Hc).
    assert (existsb (existsb is_na) (rows d) = true); [|congruence].
    apply existsb_exists. exists r. split; [assumption|].
    apply existsb_exists. now exists NA.
Qed.

Lemma blank_cell_iff (c : cell) :
  blank_cell c = true
  <-> c = NA \/ exists t, c = Text t /\ blank t = true.
Proof.
  split.
  - destruct c as [|t|q|b]; cbn; intros H; try discriminate.
    + now left.
    + right. now exists t.
  - intros [->|(t & -> & Ht)]; [reflexivity | exact Ht].
Qed.

Lemma failed_empty_rows_iff (d : DataFrame) :
  failed (empty_rows_verdict d) = true
  <-> exists r, In r (rows d)
                /\ forall c, In c r ->
                     c = NA
                     \/ exists t, c = Text t /\ blank t = true.
Proof.
  unfold empty_rows_verdict.
  destruct (existsb (forallb blank_cell) (rows d)) eqn:E.
  - split; [intros _ | reflexivity].
    apply existsb_exists in E as (r & Hr & Hall).
    exists r. split; [assumption|]. intros c Hc. apply blank_cell_iff.
    revert c Hc. now apply forallb_forall.
  - split; [discriminate|]. intros (r & Hr & Hall).
    assert (existsb (forallb blank_cell) (rows d) = true); [|congruence].
    apply existsb_exists. exists r. split; [assumption|].
    apply forallb_forall. intros c Hc. apply blank_cell_iff. now apply Hall.
Qed.

Lemma passed_name_iff (os_path : OsPath.flavour) (filename : string) :
  failed (validate_file_name os_path filename) = false
  <-> exists w, w <> EmptyString /\ Str.forallb name_char w = true
                /\ (base_name os_path filename = w
                    \/ base_name os_path filename = (w ++ nl)%string).
Proof.
  unfold validate_file_name, base_name.
  rewrite <- NameFacts.re_match_name_spec.
  destruct (re_match_name _); split; try reflexivity; try discriminate.
Qed.

(** X1. The File Name verdict passes exactly when the base name is a
    non-empty run of ASCII letters, digits and spaces, alone or followed by
    one final newline. *)
Theorem file_name_verdict_exact (os_path : OsPath.flavour) (filename : string) :
  failed (validate_file_name os_path filename) = false
  <-> exists w, w <> EmptyString /\ Str.forallb name_char w = true
                /\ (base_name os_path filename = w
                    \/ base_name os_path filename = (w ++ nl)%string).
Proof.
  apply passed_name_iff.
Qed.

(** X2. On a frame of the store, [validate_headers] passes exactly when the
    column names are the five required names in their order and casing; a
    frame whose number of columns is not five fails; the store is left as it
    was. *)
Theorem headers_verdict_exact (data : ref) (d : DataFrame) (s : state) :
  nth_error (heap s) data = Some d ->
  exists v,
    validate_headers data s = (inr v, s)
    /\ (failed v = false
        <-> columns d = ["CUSTOMER"; "ADDRESS"; "PRODUCT"; "PRODUCT_TYPE";
                         "PRICE"])
    /\ (List.length (columns d) <> 5%nat -> failed v = true).
Proof.
  intros Hd. exists (headers_verdict d).
  split; [now apply Steps.validate_headers_run|].
  split; [apply failed_headers_iff|].
  intros Hlen. destruct (failed (headers_verdict d)) eqn:E; [reflexivity|].
  apply failed_headers_iff in E. rewrite E in Hlen. now elim Hlen.
Qed.

(** X3. On a frame of the store, [check_null_values] fails exactly when some
    row has a missing cell; in particular a frame without rows passes. *)
Theorem null_values_verdict_exact (data : ref) (d : DataFrame) (s : state) :
  nth_error (heap s) data = Some d ->
  exists v,
    fst (check_null_values data s) = inr v
    /\ (failed v = true <-> exists r, In r (rows d) /\ In NA r)
    /\ (rows d = [] -> failed v = false).
Proof.
  intros Hd. exists (null_verdict d).
  rewrite (Steps.check_null_values_run data d s Hd).
  split; [reflexivity|]. split; [apply failed_null_iff|].
  intros Hrows. unfold null_verdict. now rewrite Hrows.
Qed.

(** X4. On a frame of the store, [check_empty_rows] fails exactly when some
    row consists of cells that are missing or text that [^\s*$] matches,
    that is text of Unicode white space only (the empty text included); a row with a number or a boolean in it is never an
    empty row, and a frame without rows passes. *)
Theorem empty_rows_verdict_exact (data : ref) (d : DataFrame) (s : state) :
  nth_error (heap s) data = Some d ->
  exists v,
    fst (check_empty_rows data s) = inr v
    /\ (failed v = true
        <-> exists r, In r (rows d)
                      /\ forall c, In c r ->
                           c = NA
                           \/ exists t, c = Text t
                                        /\ blank t = true)
    /\ ((forall r, In r (rows d) ->
           exists c, In c r /\ ((exists q, c = Num q) \/ exists b, c = Flag b))
        -> failed v = false).
Proof.
  intros Hd. exists (empty_rows_verdict d).
  rewrite (Steps.check_empty_rows_run data d s Hd).
  split; [reflexivity|]. split; [apply failed_empty_rows_iff|].
  intros Hnum. destruct (failed (empty_rows_verdict d)) eqn:E; [|reflexivity].
  apply failed_empty_rows_iff in E as (r & Hr & Hall).
  destruct (Hnum r Hr) as (c & Hc & Hkind).
  destruct (Hall c Hc) as [->|(t & -> & _)];
    destruct Hkind as [(q & Hq)|(b & Hb)]; discriminate.
Qed.

(** X5. A row of missing cells only, with at least one cell (what a blank
    line of the file becomes), makes both [check_null_values] and
    [check_empty_rows] fail. *)
Theorem blank_line_fails_both
    (data : ref) (d : DataFrame) (s : state) (r : list cell) :
  nth_error (heap s) data = Some d ->
  In r (rows d) -> r <> [] -> (forall c, In c r -> c = NA) ->
  fst (check_null_values data s)
  = inr "Uploaded file contains null values. ❌"
  /\ fst (check_empty_rows data s)
     = inr "Uploaded file contains empty rows. ❌".
Proof.
  intros Hd Hr Hne Hall.
  rewrite (Steps.check_null_values_run data d s Hd).
  rewrite (Steps.check_empty_rows_run data d s Hd). cbn [fst].
  assert (Hn : failed (null_verdict d) = true).
  { apply failed_null_iff. exists r. split; [assumption|].
    destruct r as [|c r]; [contradiction|].
    rewrite <- (Hall c (or_introl eq_refl)). now left. }
  assert (He : failed (empty_rows_verdict d) = true).
  { apply failed_empty_rows_iff. exists r. split; [assumption|].
    intros c Hc. left. now apply Hall. }
  unfold null_verdict, empty_rows_verdict in *.
  destruct (existsb (existsb is_na) (rows d));
    destruct (existsb (forallb blank_cell) (rows d));
    try discriminate. split; reflexivity.
Qed.

(** ** Further properties of the pipeline *)

Lemma prefix_append (needle a b : string) :
  prefix needle a = true -> prefix needle (a ++ b) = true.
Proof.
  revert a. induction needle as [|c needle IH]; intros a H;
    [now destruct (a ++ b)%string|].
  destruct a as [|d a]; [discriminate|]. cbn in H |- *.
  destruct (ascii_dec c d); [now apply IH | discriminate].
Qed.

Lemma contains_append_r (needle a b : string) :
  Str.contains needle a = true -> Str.contains needle (a ++ b) = true.
Proof.
  induction a as [|c a IH]; intros H.
  - cbn in H. destruct needle; [now destruct b | discriminate].
  - cbn [Str.contains] in H.
    destruct (prefix needle (String c a)) eqn:E.
    + apply (prefix_append _ _ b) in E. cbn [append] in E |- *.
      cbn [Str.contains]. now rewrite E.
    + cbn [append]. apply StrFacts.contains_cons. now apply IH.
Qed.

Lemma parse_candidates_error
    (pd_read_csv : list byte -> ascii -> (exn + DataFrame) * nat)
    (input : list byte) (candidates : list ascii) (e : exn) :
  parse_candidates pd_read_csv input candidates = inl e ->
  e = ValueError parse_failure
  /\ first_matching pd_read_csv input candidates = None.
Proof.
  unfold parse_candidates.
  destruct (first_matching pd_read_csv input candidates) as [dl|] eqn:E.
  - apply find_some in E as [_ E]. intros H. rewrite H in E. discriminate.
  - intros H. injection H as <-. split; reflexivity.
Qed.

Lemma rfind_from_absent (c : ascii) (s : string) : forall i,
  has_char c s = false -> Str.rfind_from i c s = (-1)%Z.
Proof.
  induction s as [|d s IH]; intros i H; [reflexivity|].
  cbn in H |- *. apply orb_false_elim in H as [Hd Hs].
  rewrite (IH _ Hs), Hd. reflexivity.
Qed.

Lemma rfind_from_lower (c : ascii) (s : string) : forall i,
  (0 <= i)%Z -> (-1 <= Str.rfind_from i c s)%Z.
Proof.
  induction s as [|d s IH]; intros i Hi; cbn; [lia|].
  specialize (IH (i + 1)%Z ltac:(lia)).
  destruct (0 <=? Str.rfind_from (i + 1) c s)%Z; [lia|].
  destruct (Ascii.eqb d c); lia.
Qed.

Lemma extension_without_period (os_path : OsPath.flavour) (filename : string) :
  has_char "."%char filename = false ->
  OsPath.splitext os_path filename = (filename, EmptyString).
Proof.
  intros H. unfold OsPath.splitext, Str.rfind, OsPath.extsep.
  rewrite (rfind_from_absent _ _ 0%Z H).
  assert (Hs : forall c, (-1 <= Str.rfind_from 0 c filename)%Z)
    by (intros c; apply rfind_from_lower; lia).
  destruct (OsPath.altsep os_path) as [a|].
  - pose proof (Hs (OsPath.sep os_path)). pose proof (Hs a).
    destruct (Z.ltb_spec (Z.max (Str.rfind_from 0 (OsPath.sep os_path) filename)
                                (Str.rfind_from 0 a filename)) (-1));
      [lia | reflexivity].
  - pose proof (Hs (OsPath.sep os_path)).
    destruct (Z.ltb_spec (Str.rfind_from 0 (OsPath.sep os_path) filename) (-1));
      [lia | reflexivity].
Qed.

Lemma existsb_filter_nonempty {A} (f : A -> bool) (l : list A) :
  existsb f l = true -> filter f l <> [].
Proof.
  intros H F. apply existsb_exists in H as (x & Hx & Hfx).
  assert (Hin : In x (filter f l)) by (apply filter_In; now split).
  rewrite F in Hin. contradiction.
Qed.

Ltac rows_named :=
  repeat (apply Forall_cons; [split; [reflexivity | cbn; auto 10]|]);
  apply Forall_nil.

Section Runs.

Variable os_path : OsPath.flavour.
Variable str_lower : string -> string.
Variable pd_read_csv : list byte -> ascii -> (exn + DataFrame) * nat.

(** The early return of [process_files], under the test of the code. *)
Lemma process_files_mismatch (file_type filename : string) (s : state) :
  str_lower (actual_extension os_path filename) <> file_type ->
  process_files os_path str_lower pd_read_csv file_type filename s
  = (TypeMismatch (mismatch_message file_type),
     {| file := file s; heap := heap s;
        db := db s ++ [row filename "File Type" (mismatch_message file_type)];
        calls := calls s |}).
Proof.
  intros Hne. apply String.eqb_neq in Hne.
  unfold process_files, process_files_body.
  unfold actual_extension in Hne. rewrite Hne. cbn [negb].
  Steps.run_ops. reflexivity.
Qed.

(** X6. The declared type is compared as it is given: a declared type with
    an upper-case ASCII letter in it is rejected by the type check for every
    file name, with the one row of that check, even when the extension has
    the same spelling.  The one fact about [str.lower] that is used is that
    its result holds no upper-case ASCII letter (the fold of the ASCII
    letters leaves it unchanged). *)
Theorem declared_type_is_case_sensitive
    (file_type filename : string) (s : state) :
  (forall t, Str.lower (str_lower t) = str_lower t) ->
  Str.lower file_type <> file_type ->
  let out := process_files os_path str_lower pd_read_csv file_type filename s in
  fst out = TypeMismatch (mismatch_message file_type)
  /\ db (snd out)
     = db s ++ [row filename "File Type" (mismatch_message file_type)].
Proof.
  intros Hlow Hcase out. subst out.
  rewrite process_files_mismatch; [split; reflexivity|].
  intros E. apply Hcase. rewrite <- E. apply Hlow.
Qed.

(** X7. A file name without a period has no extension: it is rejected by
    the type check for every declared type but the empty one.  The one fact
    about [str.lower] that is used is that it maps the empty text to the
    empty text. *)
Theorem name_without_period_is_rejected
    (file_type filename : string) (s : state) :
  str_lower EmptyString = EmptyString ->
  has_char "."%char filename = false ->
  file_type <> EmptyString ->
  let out := process_files os_path str_lower pd_read_csv file_type filename s in
  actual_extension os_path filename = EmptyString
  /\ fst out = TypeMismatch (mismatch_message file_type)
  /\ db (snd out)
     = db s ++ [row filename "File Type" (mismatch_message file_type)].
Proof.
  intros Hempty Hdot Hft out. subst out.
  assert (Hext : actual_extension os_path filename = EmptyString).
  { unfold actual_extension. now rewrite extension_without_period. }
  split; [exact Hext|].
  rewrite process_files_mismatch; [split; reflexivity|].
  rewrite Hext, Hempty. congruence.
Qed.

(** X8. Every run only appends to the table of results: the rows added
    carry the name of the upload and one of the seven rule names, and there
    are one of them after a type mismatch, two after an exception, five
    after a rejection and ten after an acceptance.  The bytes of the stream
    and the frames that were in the store are left as they were. *)
Theorem process_files_appends_rows
    (file_type filename : string) (s : state) :
  let out := process_files os_path str_lower pd_read_csv file_type filename s in
  exists added,
    db (snd out) = db s ++ added
    /\ Forall (fun r => row_file_name r = filename
                        /\ In (validation_rule r) rule_names) added
    /\ List.length added
       = match fst out with
         | TypeMismatch _ => 1
         | CaughtValueError _ | CaughtException _ => 2
         | FileRejected _ => 5
         | FileAccepted _ => 10
         end%nat
    /\ content (file (snd out)) = content (file s)
    /\ (forall r x, nth_error (heap s) r = Some x ->
                    nth_error (heap (snd out)) r = Some x).
Proof.
  intros out. subst out.
  destruct (string_dec (str_lower (actual_extension os_path filename))
              file_type) as [Hext|Hne].
  - destruct (Steps.process_files_matching os_path str_lower pd_read_csv
                file_type filename s Hext)
      as (junk & cs & Hc & Hheap & _ & Hcase).
    assert (Hkeep : forall r x, nth_error (heap s) r = Some x ->
              nth_error (heap (snd (process_files os_path str_lower pd_read_csv
                                      file_type filename s))) r = Some x)
      by (intros r x Hx; rewrite Hheap; now apply Steps.nth_error_keep).
    destruct (parse pd_read_csv file_type (content (file s))) as [[e|d]|].
    + destruct Hcase as (Hres & Hdb & _). eexists. split; [exact Hdb|].
      split; [rows_named|].
      rewrite Hres. split; [now destruct e|]. now split.
    + cbv zeta in Hcase. destruct Hcase as (Hres & Hdb & _).
      eexists. split; [exact Hdb|]. rewrite Hres.
      destruct (existsb failed _).
      * split; [rows_named|]. now split.
      * split; [rows_named|]. now split.
    + destruct Hcase as (Hres & Hdb & _). eexists. split; [exact Hdb|].
      split; [rows_named|].
      rewrite Hres. now split.
  - rewrite (process_files_mismatch _ _ _ Hne). cbn [fst snd db file heap].
    eexists. split; [reflexivity|].
    split; [rows_named|]. now split.
Qed.

(** X9. An upload is accepted only if the lowered extension is the declared
    type, that type is csv or txt, the parse gave a table and all five rules
    passed: the name matches the pattern, the file has at most 10240 bytes,
    the columns are the required ones, no cell is missing and no row is
    empty.  The results listed are then the five passing verdicts. *)
Theorem accepted_only_if_all_pass
    (file_type filename : string) (s : state) (results : list string) :
  fst (process_files os_path str_lower pd_read_csv file_type filename s)
  = FileAccepted results ->
  str_lower (actual_extension os_path filename) = file_type
  /\ (file_type = "csv" \/ file_type = "txt")
  /\ results = passing_results
  /\ re_match_name (base_name os_path filename) = true
  /\ (Z.of_nat (List.length (content (file s))) <= 10240)%Z
  /\ exists d,
       parse pd_read_csv file_type (content (file s)) = Some (inr d)
       /\ columns d = ALLOWED_HEADERS
       /\ (forall r, In r (rows d) -> ~ In NA r)
       /\ (forall r, In r (rows d) -> exists c, In c r /\ blank_cell c = false).
Proof.
  intros Hacc.
  destruct (string_dec (str_lower (actual_extension os_path filename))
              file_type) as [Hext|Hne];
    [|rewrite (process_files_mismatch _ _ _ Hne) in Hacc; discriminate].
  destruct (Steps.process_files_matching os_path str_lower pd_read_csv
              file_type filename s Hext)
    as (junk & cs & _ & _ & _ & Hcase).
  destruct (parse pd_read_csv file_type (content (file s)))
    as [[e|d]|] eqn:Hparse.
  - destruct Hcase as (Hres & _). rewrite Hres in Hacc.
    destruct e; discriminate.
  - cbv zeta in Hcase. destruct Hcase as (Hres & _). rewrite Hres in Hacc.
    destruct (existsb failed _) eqn:Hany; [discriminate|].
    injection Hacc as <-.
    cbn [existsb] in Hany. rewrite orb_false_r in Hany.
    apply orb_false_elim in Hany as [H1 Hany].
    apply orb_false_elim in Hany as [H2 Hany].
    apply orb_false_elim in Hany as [H3 Hany].
    apply orb_false_elim in Hany as [H4 H5].
    split; [exact Hext|]. split.
    { unfold parse in Hparse.
      destruct (String.eqb file_type "csv") eqn:Ecsv;
        [left; now apply String.eqb_eq|].
      destruct (String.eqb file_type "txt") eqn:Etxt;
        [right; now apply String.eqb_eq | discriminate]. }
    split.
    { unfold passing_results.
      rewrite (passed_name _ _ H1), (passed_headers _ H3),
        (passed_null _ H4), (passed_empty_rows _ H5).
      unfold size_verdict in *. now destruct (_ <=? _)%nat. }
    split.
    { unfold validate_file_name in H1. unfold base_name.
      now destruct (re_match_name _). }
    split; [now apply passed_size|].
    exists d. split; [reflexivity|].
    split; [now apply failed_headers_iff|]. split.
    + intros r Hr Hna.
      assert (failed (null_verdict d) = true); [|congruence].
      apply failed_null_iff. now exists r.
    + intros r Hr.
      destruct (forallb blank_cell r) eqn:Hall.
      * assert (failed (empty_rows_verdict d) = true); [|congruence].
        apply failed_empty_rows_iff. exists r. split; [assumption|].
        intros c Hc. apply blank_cell_iff. revert c Hc.
        now apply forallb_forall.
      * clear -Hall. induction r as [|c r IH]; [discriminate|].
        cbn in Hall. destruct (blank_cell c) eqn:Hc.
        -- destruct (IH Hall) as (c' & Hin & Hb). exists c'. split;
             [now right | assumption].
        -- exists c. split; [now left | assumption].
  - destruct Hcase as (Hres & _). rewrite Hres in Hacc. discriminate.
Qed.

(** X10. On the csv path an exception of the reader ends the run after the
    rows of File Name and File Size: a ValueError is answered with its own
    text followed by the failure mark, any other exception with the text of
    the unexpected error. *)
Theorem csv_reader_exception_is_reported
    (filename : string) (s : state) (e : exn) :
  str_lower (actual_extension os_path filename) = "csv" ->
  fst (pd_read_csv (content (file s)) ","%char) = inl e ->
  let out := process_files os_path str_lower pd_read_csv "csv" filename s in
  content_of (fst out)
  = ("error",
     match e with
     | ValueError msg => (msg ++ " ❌")%string
     | _ => ("An unexpected error occurred: " ++ exn_str e ++ " ❌")%string
     end)
  /\ db (snd out)
     = db s ++ [row filename "File Name" (validate_file_name os_path filename);
                row filename "File Size"
                  (size_verdict (List.length (content (file s))))]
  /\ Forall (fun f => ~ table_fn f)
       (skipn (List.length (calls s)) (calls (snd out))).
Proof.
  intros Hext He out.
  destruct (Steps.process_files_matching os_path str_lower pd_read_csv
              "csv" filename s Hext)
    as (junk & cs & _ & _ & Hcs & Hcase).
  unfold parse in Hcase. change (String.eqb "csv" "csv") with true in Hcase.
  cbv iota in Hcase. rewrite He in Hcase.
  fold out in Hcase. destruct Hcase as (Hres & Hdb & Hcalls).
  rewrite Hres. split; [now destruct e|]. split; [exact Hdb|].
  rewrite Hcalls, skipn_app, Nat.sub_diag, skipn_all. cbn [app skipn].
  constructor; [intros [H|[H|H]]; discriminate|].
  constructor; [intros [H|[H|H]]; discriminate|].
  eapply Forall_impl; [|exact Hcs].
  intros f [-> | ->] [H|[H|H]]; discriminate.
Qed.

(** X11. On the txt path the exceptions of the reader never reach the
    caller: the run is accepted, rejected, or ends with the one ValueError
    of [read_txt_file]; no response of the unexpected error and no other
    error text is possible. *)
Theorem txt_run_reports_no_reader_exception (filename : string) (s : state) :
  str_lower (actual_extension os_path filename) = "txt" ->
  let r := fst (process_files os_path str_lower pd_read_csv "txt" filename s) in
  (exists results, r = FileAccepted results)
  \/ (exists failing, r = FileRejected failing)
  \/ r = CaughtValueError
           "Failed to parse the .txt file with common delimiters (tab, comma, space).".
Proof.
  intros Hext r. subst r.
  destruct (Steps.process_files_matching os_path str_lower pd_read_csv
              "txt" filename s Hext)
    as (junk & cs & _ & _ & _ & Hcase).
  unfold parse in Hcase. change (String.eqb "txt" "csv") with false in Hcase.
  change (String.eqb "txt" "txt") with true in Hcase. cbv iota in Hcase.
  unfold parse_txt in Hcase.
  destruct (parse_candidates pd_read_csv (content (file s))
              [tab; ","%char; " "%char]) as [e|d] eqn:Hp.
  - apply parse_candidates_error in Hp as [-> _].
    destruct Hcase as (Hres & _). right. right. exact Hres.
  - cbv zeta in Hcase. destruct Hcase as (Hres & _). rewrite Hres.
    destruct (existsb failed _); [right; left | left]; now eexists.
Qed.

(** X12. [read_txt_file] stops at the first candidate that matches: the
    reader is entered once for each candidate up to and with that one (for
    every candidate when none matches) and for no later one, and nothing is
    written to the table of results. *)
Theorem read_txt_file_stops_at_first_match
    (delimiters : list ascii) (s : state) :
  let out := read_txt_file pd_read_csv delimiters s in
  let n := attempts pd_read_csv (content (file s)) delimiters in
  calls (snd out) = calls s ++ repeat Fn_read_csv n
  /\ (n <= List.length delimiters)%nat
  /\ (forall before delimiter after,
        delimiters = before ++ delimiter :: after ->
        schema_matches (fst (pd_read_csv (content (file s)) delimiter)) = true ->
        (n <= S (List.length before))%nat)
  /\ db (snd out) = db s.
Proof.
  cbv zeta. revert s.
  induction delimiters as [|delimiter rest IH]; intros s.
  - cbn. rewrite app_nil_r. repeat split; lia.
  - rewrite Steps.read_txt_file_cons. cbv zeta. cbn [attempts].
    destruct (pd_read_csv (content (file s)) delimiter) as [[e|d] used] eqn:E;
      cbn [fst snd schema_matches].
    + match goal with |- context [read_txt_file _ _ ?s1] =>
        destruct (IH s1) as (H1 & H2 & H3 & H4) end.
      cbv [advance] in *. cbn [file heap db calls content] in *.
      rewrite H1, <- app_assoc. cbn [app repeat List.length].
      split; [reflexivity|]. split; [lia|]. split; [|assumption].
      intros [|b before] dl after Hsplit Hm; injection Hsplit as -> ->.
      * rewrite E in Hm. discriminate.
      * specialize (H3 before dl after eq_refl Hm). cbn [List.length]. lia.
    + destruct (Str.list_eqb (columns d) ALLOWED_HEADERS) eqn:Hm.
      * cbn [fst snd calls db repeat List.length].
        split; [reflexivity|]. split; [lia|]. split; [|reflexivity].
        intros before dl after _ _. lia.
      * match goal with |- context [read_txt_file _ _ ?s1] =>
          destruct (IH s1) as (H1 & H2 & H3 & H4) end.
        cbv [advance] in *. cbn [file heap db calls content] in *.
        rewrite H1, <- app_assoc. cbn [app repeat List.length].
        split; [reflexivity|]. split; [lia|]. split; [|assumption].
        intros [|b before] dl after Hsplit Hm'; injection Hsplit as -> ->.
        -- rewrite E in Hm'. cbn in Hm'. congruence.
        -- specialize (H3 before dl after eq_refl Hm'). cbn [List.length]. lia.
Qed.

Lemma rejected_content_marked (m : string) (l : list string) :
  failed m = true ->
  failed (snd (content_of (FileRejected (m :: l)))) = true.
Proof.
  intros Hm. unfold failed in *.
  cbn [content_of snd map Str.join fold_right li].
  do 10 apply StrFacts.contains_append.
  do 2 apply contains_append_r.
  apply StrFacts.contains_append. now apply contains_append_r.
Qed.

(** X13. The text returned to the client carries the failure mark exactly
    when the upload was not accepted, whatever the declared type, the name,
    the content and the reader are; and the key of the response is
    [message] exactly when the upload was accepted, [error] otherwise. *)
Theorem response_marked_unless_accepted
    (file_type filename : string) (s : state) :
  let r := fst (process_files os_path str_lower pd_read_csv file_type filename s) in
  failed (snd (content_of r)) = negb (is_accepted r)
  /\ fst (content_of r) = (if is_accepted r then "message" else "error").
Proof.
  intros r. subst r.
  destruct (string_dec (str_lower (actual_extension os_path filename))
              file_type) as [Hext|Hne].
  - destruct (Steps.process_files_matching os_path str_lower pd_read_csv
                file_type filename s Hext)
      as (junk & cs & _ & _ & _ & Hcase).
    destruct (parse pd_read_csv file_type (content (file s))) as [[e|d]|].
    + destruct Hcase as (-> & _).
      destruct e; cbn [handlers content_of is_accepted fst snd negb];
        (split; [|reflexivity]); unfold failed;
        repeat apply StrFacts.contains_append; reflexivity.
    + cbv zeta in Hcase. destruct Hcase as (-> & _).
      destruct (existsb failed _) eqn:Hany.
      * split; [|reflexivity]. cbn [is_accepted negb].
        apply existsb_exists in Hany as (x & Hx & Hfx).
        assert (Hin : In x (filter failed
                   [validate_file_name os_path filename;
                    size_verdict (List.length (content (file s)));
                    headers_verdict d; null_verdict d; empty_rows_verdict d]))
          by (apply filter_In; now split).
        destruct (filter failed _) as [|m l] eqn:F; [contradiction|].
        apply rejected_content_marked.
        assert (Hm : In m (m :: l)) by now left.
        rewrite <- F in Hm. now apply filter_In in Hm.
      * cbn [existsb] in Hany. rewrite orb_false_r in Hany.
        apply orb_false_elim in Hany as [H1 Hany].
        apply orb_false_elim in Hany as [H2 Hany].
        apply orb_false_elim in Hany as [H3 Hany].
        apply orb_false_elim in Hany as [H4 H5].
        rewrite (passed_name _ _ H1), (passed_headers _ H3),
          (passed_null _ H4), (passed_empty_rows _ H5).
        assert (H2' : size_verdict (List.length (content (file s)))
                      = "File size is valid. ✅")
          by (unfold size_verdict in *; now destruct (_ <=? _)%nat).
        rewrite H2'. split; reflexivity.
    + destruct Hcase as (-> & _). split; reflexivity.
  - rewrite (process_files_mismatch _ _ _ Hne).
    cbn [fst snd content_of is_accepted negb].
    split; [apply failed_mismatch_message | reflexivity].
Qed.

(** X15. A rejection comes only after a successful parse; it lists at least
    one message and at most five, every message it lists is a failing
    verdict, and the run wrote the five rows of the rules and no row under
    Validation. *)
Theorem rejection_lists_failures_only
    (file_type filename : string) (s : state) (failing : list string) :
  fst (process_files os_path str_lower pd_read_csv file_type filename s)
  = FileRejected failing ->
  failing <> []
  /\ (List.length failing <= 5)%nat
  /\ Forall (fun m => failed m = true) failing
  /\ (exists d, parse pd_read_csv file_type (content (file s)) = Some (inr d))
  /\ map validation_rule
       (skipn (List.length (db s))
          (db (snd (process_files os_path str_lower pd_read_csv file_type filename s))))
     = ["File Name"; "File Size"; "Headers"; "Null Values"; "Empty Rows"].
Proof.
  intros Hrej.
  destruct (string_dec (str_lower (actual_extension os_path filename))
              file_type) as [Hext|Hne];
    [|rewrite (process_files_mismatch _ _ _ Hne) in Hrej; discriminate].
  destruct (Steps.process_files_matching os_path str_lower pd_read_csv
              file_type filename s Hext)
    as (junk & cs & _ & _ & _ & Hcase).
  destruct (parse pd_read_csv file_type (content (file s)))
    as [[e|d]|] eqn:Hparse.
  - destruct Hcase as (Hres & _). rewrite Hres in Hrej.
    destruct e; discriminate.
  - cbv zeta in Hcase. destruct Hcase as (Hres & Hdb & _).
    rewrite Hres in Hrej.
    set (results := [validate_file_name os_path filename;
                     size_verdict (List.length (content (file s)));
                     headers_verdict d; null_verdict d;
                     empty_rows_verdict d]) in *.
    destruct (existsb failed results) eqn:Hany; [|discriminate].
    assert (Hf : failing = filter failed results) by congruence.
    rewrite Hf. clear Hf Hrej.
    split; [now apply existsb_filter_nonempty|].
    split; [apply (filter_length_le failed results)|].
    split.
    { apply Forall_forall. intros m Hm. now apply filter_In in Hm. }
    split; [now exists d|].
    rewrite Hdb, skipn_app, Nat.sub_diag, skipn_all, app_nil_r.
    reflexivity.
  - destruct Hcase as (Hres & _). rewrite Hres in Hrej. discriminate.
Qed.

End Runs.

(** ** The shape of a file name that passes *)

Lemma take_drop (n : nat) (s : string) :
  (Str.take n s ++ Str.drop n s)%string = s.
Proof.
  revert s. induction n as [|n IH]; intros [|c s]; cbn; try reflexivity.
  now rewrite IH.
Qed.

Lemma rfind_from_negative (c : ascii) (s : string) : forall j,
  (0 <= j)%Z -> (Str.rfind_from j c s < 0)%Z -> has_char c s = false.
Proof.
  induction s as [|d s IH]; intros j Hj H; [reflexivity|].
  cbn in H |- *.
  destruct (Z.leb_spec 0 (Str.rfind_from (j + 1) c s)) as [Hr|Hr]; [lia|].
  destruct (Ascii.eqb d c); [lia|]. cbn.
  apply (IH (j + 1)%Z); lia.
Qed.

Lemma rfind_from_found (c : ascii) (s : string) : forall i,
  (0 <= i)%Z -> (0 <= Str.rfind_from i c s)%Z ->
  (i <= Str.rfind_from i c s)%Z
  /\ exists rest,
       Str.drop (Z.to_nat (Str.rfind_from i c s - i)) s = String c rest
       /\ has_char c rest = false.
Proof.
  induction s as [|d s IH]; intros i Hi H; cbn in H |- *; [lia|].
  destruct (Z.leb_spec 0 (Str.rfind_from (i + 1) c s)) as [Hr|Hr].
  - destruct (IH (i + 1)%Z ltac:(lia) Hr) as (Hle & rest & Hdrop & Hrest).
    split; [lia|]. exists rest. split; [|assumption].
    replace (Z.to_nat (Str.rfind_from (i + 1) c s - i))
      with (S (Z.to_nat (Str.rfind_from (i + 1) c s - (i + 1)))) by lia.
    exact Hdrop.
  - destruct (Ascii.eqb_spec d c) as [->|Hdc]; [|lia].
    split; [lia|]. exists s. rewrite Z.sub_diag. split; [reflexivity|].
    apply (rfind_from_negative c s (i + 1)%Z); lia.
Qed.

(** [os.path.splitext]: the two parts make up the path, and the extension
    is empty or a period followed by text without a period. *)
Lemma splitext_shape (os_path : OsPath.flavour) (p : string) :
  (fst (OsPath.splitext os_path p) ++ snd (OsPath.splitext os_path p))%string
  = p
  /\ (snd (OsPath.splitext os_path p) = EmptyString
      \/ exists e, snd (OsPath.splitext os_path p) = String "."%char e
                   /\ has_char "."%char e = false).
Proof.
  unfold OsPath.splitext.
  set (sepIndex := match OsPath.altsep os_path with
                   | Some a => Z.max (Str.rfind (OsPath.sep os_path) p)
                                     (Str.rfind a p)
                   | None => Str.rfind (OsPath.sep os_path) p
                   end).
  assert (Hsep : (-1 <= sepIndex)%Z).
  { subst sepIndex. unfold Str.rfind.
    pose proof (rfind_from_lower (OsPath.sep os_path) p 0%Z ltac:(lia)).
    destruct (OsPath.altsep os_path); lia. }
  destruct (Z.ltb_spec sepIndex (Str.rfind OsPath.extsep p)) as [Hlt|Hge].
  - destruct (OsPath.has_non_dot _ _); cbn [fst snd].
    + split; [apply take_drop|]. right.
      unfold Str.rfind in *.
      destruct (rfind_from_found OsPath.extsep p 0%Z ltac:(lia) ltac:(lia))
        as (_ & rest & Hdrop & Hrest).
      rewrite Z.sub_0_r in Hdrop. exists rest. now split.
    + split; [apply NameFacts.append_empty_r | now left].
  - cbn [fst snd]. split; [apply NameFacts.append_empty_r | now left].
Qed.

Lemma has_char_append (c : ascii) (a b : string) :
  has_char c (a ++ b) = has_char c a || has_char c b.
Proof.
  induction a as [|d a IH]; cbn; [reflexivity|].
  now rewrite IH, orb_assoc.
Qed.

Lemma has_char_outside (p : ascii -> bool) (c : ascii) (w : string) :
  Str.forallb p w = true -> p c = false -> has_char c w = false.
Proof.
  intros Hw Hc. induction w as [|d w IH]; [reflexivity|].
  cbn in Hw |- *. apply andb_prop in Hw as [Hd Hw].
  rewrite (IH Hw), orb_false_r.
  destruct (Ascii.eqb_spec d c) as [->|_]; [congruence | reflexivity].
Qed.

(** X14. A file name that passes File Name is its base name followed by its
    extension, the base name holds no period, no slash and no backslash, and
    the extension is empty or one period followed by text without a period:
    a passing name is a single path component with at most one period. *)
Theorem passing_name_shape (os_path : OsPath.flavour) (filename : string) :
  failed (validate_file_name os_path filename) = false ->
  let root := base_name os_path filename in
  let ext := snd (OsPath.splitext os_path filename) in
  filename = (root ++ ext)%string
  /\ has_char "."%char root = false
  /\ has_char "/"%char root = false
  /\ has_char "\"%char root = false
  /\ (ext = EmptyString
      \/ exists e, ext = String "."%char e /\ has_char "."%char e = false).
Proof.
  intros Hpass root ext.
  destruct (splitext_shape os_path filename) as [Hcat Hext].
  split; [symmetry; exact Hcat|].
  apply passed_name_iff in Hpass as (w & _ & Hw & Hroot).
  fold root in Hroot.
  assert (Hout : forall c, name_char c = false ->
                   has_char c nl = false -> has_char c root = false).
  { intros c Hc Hnl. destruct Hroot as [->| ->].
    - now apply (has_char_outside name_char).
    - rewrite has_char_append, Hnl, orb_false_r.
      now apply (has_char_outside name_char). }
  repeat split; try (apply Hout; reflexivity). exact Hext.
Qed.

(** ** The further properties on concrete inputs *)

Lemma headers_verdict_exact_witness :
  exists v,
    validate_headers 0%nat (store_of blank_line_frame)
    = (inr v, store_of blank_line_frame)
    /\ failed v = false.
Proof.
  destruct (headers_verdict_exact 0%nat blank_line_frame
              (store_of blank_line_frame) eq_refl) as (v & Hrun & Hiff & _).
  exists v. split; [exact Hrun|]. apply Hiff. reflexivity.
Defined.

Lemma null_values_verdict_exact_witness :
  exists v,
    fst (check_null_values 0%nat (store_of blank_line_frame)) = inr v
    /\ failed v = true.
Proof.
  destruct (null_values_verdict_exact 0%nat blank_line_frame
              (store_of blank_line_frame) eq_refl) as (v & Hrun & Hiff & _).
  exists v. split; [exact Hrun|]. apply Hiff.
  exists [NA; NA; NA; NA; NA]. split; cbn; auto.
Defined.

Lemma empty_rows_verdict_exact_witness :
  exists v,
    fst (check_empty_rows 1%nat Demo.loaded) = inr v /\ failed v = true.
Proof.
  destruct (empty_rows_verdict_exact 1%nat Demo.gappy_frame Demo.loaded
              eq_refl) as (v & Hrun & Hiff & _).
  exists v. split; [exact Hrun|]. apply Hiff.
  exists [Text " "; NA; Text ""; NA; NA]. split; [cbn; auto|].
  intros c [<-|[<-|[<-|[<-|[<-|[]]]]]]; auto; right; eexists; split;
    reflexivity.
Defined.

Lemma blank_line_fails_both_witness :
  fst (check_null_values 0%nat (store_of blank_line_frame))
  = inr "Uploaded file contains null values. ❌"
  /\ fst (check_empty_rows 0%nat (store_of blank_line_frame))
     = inr "Uploaded file contains empty rows. ❌".
Proof.
  apply (blank_line_fails_both 0%nat blank_line_frame
           (store_of blank_line_frame) [NA; NA; NA; NA; NA] eq_refl).
  - cbn. auto.
  - discriminate.
  - intros c [<-|[<-|[<-|[<-|[<-|[]]]]]]; reflexivity.
Defined.

(** A file named Report1.CSV declared as CSV. *)
Lemma declared_type_is_case_sensitive_witness :
  fst (process_files OsPath.ntpath Str.lower Demo.read_csv "CSV" "Report1.CSV"
         (Demo.upload Demo.report1))
  = TypeMismatch "File type mismatch. Expected CSV file. ❌".
Proof.
  assert (H : Str.lower "CSV" <> "CSV") by discriminate.
  exact (proj1 (declared_type_is_case_sensitive OsPath.ntpath Str.lower
                  Demo.read_csv "CSV" "Report1.CSV"
                  (Demo.upload Demo.report1) StrFacts.lower_idem H)).
Defined.

(** A file named Report1, without an extension, declared as csv. *)
Lemma name_without_period_is_rejected_witness :
  fst (process_files OsPath.posixpath Str.lower Demo.read_csv "csv" "Report1"
         (Demo.upload Demo.report1))
  = TypeMismatch "File type mismatch. Expected csv file. ❌".
Proof.
  assert (H : "csv" <> EmptyString) by discriminate.
  assert (H0 : has_char "."%char "Report1" = false)
    by (vm_compute; reflexivity).
  exact (proj1 (proj2 (name_without_period_is_rejected OsPath.posixpath Str.lower
                         Demo.read_csv "csv" "Report1"
                         (Demo.upload Demo.report1) eq_refl H0 H))).
Defined.

Lemma accepted_only_if_all_pass_witness :
  parse Demo.read_csv "csv" (list_byte_of_string Demo.report1)
  = Some (inr Demo.report1_frame)
  /\ re_match_name (base_name OsPath.ntpath "Report1.csv") = true.
Proof.
  assert (H : fst (process_files OsPath.ntpath Str.lower Demo.read_csv "csv"
                     "Report1.csv" (Demo.upload Demo.report1))
              = FileAccepted passing_results)
    by (vm_compute; reflexivity).
  destruct (accepted_only_if_all_pass OsPath.ntpath Str.lower Demo.read_csv
              "csv" "Report1.csv" (Demo.upload Demo.report1)
              passing_results H)
    as (_ & _ & _ & Hname & _ & _).
  split; [vm_compute; reflexivity | exact Hname].
Defined.

(** An empty file named empty.csv declared as csv. *)
Lemma csv_reader_exception_is_reported_witness :
  content_of
    (fst (process_files OsPath.ntpath Str.lower Demo.read_csv "csv" "empty.csv"
            (Demo.upload EmptyString)))
  = ("error", "No columns to parse from file ❌").
Proof.
  assert (H1 : Str.lower (actual_extension OsPath.ntpath "empty.csv") = "csv")
    by (vm_compute; reflexivity).
  assert (H2 : fst (Demo.read_csv
                      (content (file (Demo.upload EmptyString))) ","%char)
               = inl (ValueError "No columns to parse from file"))
    by (vm_compute; reflexivity).
  exact (proj1 (csv_reader_exception_is_reported OsPath.ntpath Str.lower Demo.read_csv
                  "empty.csv" (Demo.upload EmptyString)
                  (ValueError "No columns to parse from file") H1 H2)).
Defined.

Lemma txt_run_reports_no_reader_exception_witness :
  Str.lower (actual_extension OsPath.ntpath "notes.txt") = "txt"
  /\ ((exists results,
         fst (process_files OsPath.ntpath Str.lower Demo.read_csv "txt" "notes.txt"
                (Demo.upload Demo.semicolons)) = FileAccepted results)
      \/ (exists failing,
            fst (process_files OsPath.ntpath Str.lower Demo.read_csv "txt" "notes.txt"
                   (Demo.upload Demo.semicolons)) = FileRejected failing)
      \/ fst (process_files OsPath.ntpath Str.lower Demo.read_csv "txt" "notes.txt"
                (Demo.upload Demo.semicolons))
         = CaughtValueError parse_failure).
Proof.
  assert (H1 : Str.lower (actual_extension OsPath.ntpath "notes.txt") = "txt")
    by (vm_compute; reflexivity).
  split; [exact H1|].
  exact (txt_run_reports_no_reader_exception OsPath.ntpath Str.lower Demo.read_csv
           "notes.txt" (Demo.upload Demo.semicolons) H1).
Defined.

Lemma passing_name_shape_witness :
  "Report1.csv"
  = (base_name OsPath.ntpath "Report1.csv"
     ++ snd (OsPath.splitext OsPath.ntpath "Report1.csv"))%string
  /\ has_char "."%char (base_name OsPath.ntpath "Report1.csv") = false.
Proof.
  assert (H : failed (validate_file_name OsPath.ntpath "Report1.csv") = false)
    by (vm_compute; reflexivity).
  destruct (passing_name_shape OsPath.ntpath "Report1.csv" H)
    as (H1 & H2 & _).
  split; [exact H1 | exact H2].
Defined.

Lemma rejection_lists_failures_only_witness :
  Forall (fun m => failed m = true) ["File name is invalid. ❌"]
  /\ exists d,
       parse Demo.read_csv "csv" (list_byte_of_string Demo.report1)
       = Some (inr d).
Proof.
  assert (H : fst (process_files OsPath.ntpath Str.lower Demo.read_csv "csv"
                     "bad@name.csv" (Demo.upload Demo.report1))
              = FileRejected ["File name is invalid. ❌"])
    by (vm_compute; reflexivity).
  destruct (rejection_lists_failures_only OsPath.ntpath Str.lower Demo.read_csv
              "csv" "bad@name.csv" (Demo.upload Demo.report1)
              ["File name is invalid. ❌"] H)
    as (_ & _ & H3 & H4 & _).
  split; [exact H3 | exact H4].
Defined.

(** A file with a blank line between its rows fails both table checks and
    is rejected with the two messages, in the order of the rules. *)
Example blank_line_upload_rejected :
  fst (process_files OsPath.ntpath Str.lower Demo.read_csv "csv" "Report1.csv"
         (Demo.upload
            (Demo.line "CUSTOMER,ADDRESS,PRODUCT,PRODUCT_TYPE,PRICE"
             ++ Demo.line "Ann,1 Main St,Pen,Office,3"
             ++ Demo.line ""
             ++ Demo.line "Bob,2 High St,Ink,Office,7")%string))
  = FileRejected ["Uploaded file contains null values. ❌";
                  "Uploaded file contains empty rows. ❌"].
Proof. vm_compute. reflexivity. Qed.

(** ** White space and frames that are overwritten *)

Example blank_ascii : blank (" " ++ FileValidation.nl)%string = true.
Proof. reflexivity. Qed.

Example blank_nbsp : blank (nbsp ++ " " ++ nbsp)%string = true.
Proof. reflexivity. Qed.

Example not_blank_zwsp : blank zwsp = false.
Proof. reflexivity. Qed.

Example not_blank_letter : blank " a " = false.
Proof. reflexivity. Qed.

(** A row of no-break spaces is an empty row, and not a row of nulls. *)
Example nbsp_row_is_empty :
  fst (check_empty_rows 0%nat (store_of nbsp_frame))
  = inr "Uploaded file contains empty rows. ❌"
  /\ fst (check_null_values 0%nat (store_of nbsp_frame))
     = inr "Uploaded file does not contain null values. ✅".
Proof. split; vm_compute; reflexivity. Qed.

(** What [inplace=True] would do, which the program does not ask for: the
    frame that the reference names is overwritten and no frame is added. *)
Lemma replace_in_place_overwrites (data : ref) (d : DataFrame) (s : state) :
  nth_error (heap s) data = Some d ->
  let s' := snd (df_replace_blank data true s) in
  nth_error (heap s') data = Some (replace_blank d)
  /\ List.length (heap s') = List.length (heap s).
Proof.
  intros H. unfold df_replace_blank. Steps.run_ops. rewrite H.
  Steps.run_ops. rewrite H. cbn [snd heap].
  assert (Hlt : (data < List.length (heap s))%nat)
    by (apply nth_error_Some; congruence).
  split.
  - rewrite nth_error_app2; rewrite length_firstn, Nat.min_l by lia;
      [|lia]. now rewrite Nat.sub_diag.
  - rewrite length_app, length_firstn, Nat.min_l by lia.
    cbn [List.length]. rewrite length_skipn. lia.
Qed.

Example replace_in_place_changes_frame :
  nth_error (heap (snd (df_replace_blank 0%nat true (store_of nbsp_frame))))
            0%nat
  <> Some nbsp_frame.
Proof. vm_compute. discriminate. Qed.
